(** * Angle-error model builders (tools/build_angle_model*.py)

    A shallow embedding of the four trainer scripts:
    - [Flat]      : build_angle_model.py and build_angle_model_simple.py
                    (flat polynomial regression, pure-Python solver);
    - [Piecewise] : build_angle_model_piecewise.py (fixed 30-degree break);
    - [Split]     : build_angle_model_split.py (power brackets with a searched
                    cut-angle split, and the JavaScript it writes).

    Python floats and JavaScript numbers are IEEE-754 binary64 values: they
    are modelled by Rocq's primitive [float].  Python exceptions are modelled
    by the error monad [pyres]. *)

From Stdlib Require Import ZArith List Floats Ascii String Lia Bool Sorted.
From stdpp Require Import base option list strings gmap sorting pretty.

Set Warnings "-inexact-float,-register-all".

(** ** Python runtime: exceptions, indexing, loops *)

Inductive exn : Set :=
| IndexError | ZeroDivisionError | TypeError | ValueError
| OverflowError | RuntimeError.

Inductive pyres (A : Type) : Type :=
| Ok (a : A)
| Raise (e : exn).
Arguments Ok {A} a.
Arguments Raise {A} e.

Definition bind {A B : Type} (m : pyres A) (k : A -> pyres B) : pyres B :=
  match m with
  | Ok a => k a
  | Raise e => Raise e
  end.

Notation "'let*' x := e 'in' k" := (bind e (fun x => k))
  (at level 10, x pattern, e at level 200, k at level 200, only parsing).

(** [l[i]] for a non-negative index: IndexError when out of range. *)
Definition index {A : Type} (l : list A) (i : nat) : pyres A :=
  match l !! i with
  | Some x => Ok x
  | None => Raise IndexError
  end.

(** [range(lo, hi)] with the default step. *)
Definition range (lo hi : nat) : list nat := seq lo (hi - lo).

(** [for x in l: s = body(x, s)], stopping at the first exception. *)
Fixpoint for_each {A S : Type} (l : list A) (body : A -> S -> pyres S) (s : S)
  : pyres S :=
  match l with
  | [] => Ok s
  | x :: l' => let* s' := body x s in for_each l' body s'
  end.

(** [l[i] = v] for a non-negative index. *)
Definition set_index {A : Type} (l : list A) (i : nat) (v : A)
  : pyres (list A) :=
  if decide (i < length l) then Ok (<[i := v]> l) else Raise IndexError.

(** [enumerate(l)]. *)
Definition enumerate {A : Type} (l : list A) : list (nat * A) :=
  zip (seq 0 (length l)) l.

(** Python's true division of floats: a zero divisor raises. *)
Definition py_div (a d : float) : pyres float :=
  if (d =? 0)%float then Raise ZeroDivisionError else Ok (a / d)%float.

(** Python's [sum] of floats: left to right from the integer [0]. *)
Definition py_sum (l : list float) : float :=
  fold_left (fun acc x => (acc + x)%float) l 0%float.

(** The float nearest to an integer (ties to even); infinite when the
    integer is beyond the range of a double. *)
Definition float_of_Z (z : Z) : float :=
  SF2Prim (binary_normalize prec emax z 0 false).

Definition float_of_nat (n : nat) : float := float_of_Z (Z.of_nat n).

(** [math.sqrt]: a negative argument is a "math domain error". *)
Definition py_sqrt (x : float) : pyres float :=
  if (x <? 0)%float then Raise ValueError else Ok (sqrt x).

(** The double quote and the line feed, for the text the emitters write. *)
Definition dq : string := String (ascii_of_nat 34) EmptyString.
Definition nl : string := String (ascii_of_nat 10) EmptyString.

(** [s.split(c)] for a one-character separator. *)
Fixpoint split_char (c : ascii) (s : string) : list string :=
  match s with
  | EmptyString => [EmptyString]
  | String a s' =>
      if Ascii.eqb a c then EmptyString :: split_char c s'
      else match split_char c s' with
           | [] => [String a EmptyString]
           | w :: ws => String a w :: ws
           end
  end.

(** Python's number formatting is a built-in of the language, not code of
    the scripts: the emitters are stated for any implementation of it. *)
Record py_format : Type := mk_py_format {
  format_f : nat -> float -> string;   (* f"{x:.Nf}" *)
  format_g : float -> string;          (* f"{x:g}" *)
  format_12g : float -> string;        (* f"{x:.12g}" *)
  repr_float : float -> string;        (* f"{x}" *)
  json_dumps : list (string * float) -> string
    (* json.dumps(dict(pairs), indent=8) *)
}.

(** JSON values as [json.load] returns them. *)
Inductive json : Type :=
| JNull
| JBool (b : bool)
| JInt (z : Z)
| JFloat (f : float)
| JStr (s : string)
| JList (l : list json)
| JDict (d : list (string * json)).

(** A list comprehension [[f(x) for x in l]] whose body may raise. *)
Fixpoint comprehension {A B : Type} (f : A -> pyres B) (l : list A)
  : pyres (list B) :=
  match l with
  | [] => Ok []
  | x :: l' => let* y := f x in let* ys := comprehension f l' in Ok (y :: ys)
  end.

(** [sep.join(parts)]. *)
Definition join (sep : string) (parts : list string) : string :=
  String.concat sep parts.

(** ** Binomial coefficients, by Pascal's rule *)

Fixpoint binom (n k : nat) : nat :=
  match k, n with
  | 0, _ => 1
  | S _, 0 => 0
  | S k', S n' => binom n' k' + binom n' k
  end.

(** ** itertools.combinations_with_replacement

    [combinations_with_replacement(range(n), r)] yields the [r]-tuples of
    indices below [n] that are non-decreasing, in lexicographic order.
    [cwr r n lo] lists those whose entries are at least [lo]. *)

Fixpoint cwr (r n lo : nat) : list (list nat) :=
  match r with
  | 0 => [[]]
  | S r' => flat_map (fun i => map (cons i) (cwr r' n i)) (seq lo (n - lo))
  end.

Definition combinations_with_replacement (n r : nat) : list (list nat) :=
  cwr r n 0.



(** The terms of a polynomial expansion of [k] features up to degree [d], as
    the loops of [build_polynomial_features] visit them: the empty product
    (the constant), then for each degree [1..d] the combinations of that
    size. *)
Definition poly_terms (k d : nat) : list (list nat) :=
  [] :: flat_map (combinations_with_replacement k) (range 1 (d + 1)).

(** ** build_angle_model_simple.py *)

Module Simple.

(** *** build_polynomial_features *)

Definition feature_names : list string :=
  ["cutAngle"; "spinY"; "power"]%string.

(** The inner loop [val = 1.0; for idx in combo: val *= X[i][idx]]. *)
Definition term_value (row : list float) (combo : list nat) : pyres float :=
  for_each combo (fun idx val => let* x := index row idx in Ok (val * x)%float)
           1%float.

(** [for idx in combo: name_parts.append(feature_names[idx])]. *)
Definition name_parts (combo : list nat) : pyres (list string) :=
  comprehension (index feature_names) combo.

(** One iteration of the loop over [combo]: a column and its name are
    appended. *)
Definition add_term (X : list (list float)) (combo : list nat)
    (st : list (list float) * list string)
  : pyres (list (list float) * list string) :=
  let '(terms, term_names) := st in
  let* term := comprehension (fun row => term_value row combo) X in
  let* parts := name_parts combo in
  Ok (terms ++ [term], term_names ++ [join "*" parts]).

(** [n_features = len(X[0]) if X else 0]. *)
Definition n_features (X : list (list float)) : nat :=
  match X with
  | [] => 0
  | row :: _ => length row
  end.

(** build_angle_model_simple.py, lines 62-92. *)
Definition build_polynomial_features (X : list (list float)) (degree : nat)
  : pyres (list (list float) * list string) :=
  let n_samples := length X in
  let nf := n_features X in
  let init := ([repeat 1%float n_samples], ["1"%string]) in
  let* (terms, term_names) :=
    for_each (range 1 (degree + 1))
      (fun d st => for_each (combinations_with_replacement nf d) (add_term X) st)
      init in
  let* X_poly :=
    comprehension
      (fun i => comprehension
                  (fun j => let* col := index terms j in index col i)
                  (range 0 (length terms)))
      (range 0 n_samples) in
  Ok (X_poly, term_names).

(** *** solve_linear_system (lines 114-152)

    A matrix is a list of rows.  The functions below carry, next to the
    program state, the list of divisors the run has divided by so far: it
    plays no part in the computation and is only there to state what the
    solver never divides by. *)

Abbreviation matrix := (list (list float)).

(** [M[i][j]]. *)
Definition get2 (M : matrix) (i j : nat) : pyres float :=
  let* row := index M i in index row j.

(** [M[i][j] = v]. *)
Definition set2 (M : matrix) (i j : nat) (v : float) : pyres matrix :=
  let* row := index M i in
  let* row' := set_index row j v in
  set_index M i row'.

(** The test [abs(p) < 1e-12] applied to a pivot. *)
Definition near_zero (p : float) : bool := (abs p <? 1e-12)%float.

(** Lines 126-129: the row at or below [col] whose entry in column [col] has
    the largest magnitude. *)
Definition find_pivot (aug : matrix) (n col : nat) : pyres nat :=
  for_each (range (col + 1) n)
    (fun row max_row =>
       let* a := get2 aug row col in
       let* m := get2 aug max_row col in
       Ok (if (abs m <? abs a)%float then row else max_row))
    col.

(** Line 130: [aug[col], aug[max_row] = aug[max_row], aug[col]]. *)
Definition swap_rows (aug : matrix) (col max_row : nat) : pyres matrix :=
  let* r1 := index aug max_row in
  let* r2 := index aug col in
  let* aug1 := set_index aug col r1 in
  set_index aug1 max_row r2.

(** Lines 137-139: one row of the elimination. *)
Definition eliminate_row (n col row : nat) (st : matrix * list float)
  : pyres (matrix * list float) :=
  let '(aug, divisors) := st in
  let* a := get2 aug row col in
  let* p := get2 aug col col in
  let* factor := py_div a p in
  let* aug' :=
    for_each (range col (n + 1))
      (fun j aug =>
         let* v := get2 aug row j in
         let* c := get2 aug col j in
         set2 aug row j (v - factor * c)%float)
      aug in
  Ok (aug', divisors ++ [p]).

(** Lines 125-139: the body of the loop over [col]. *)
Definition forward_step (n col : nat) (st : matrix * list float)
  : pyres (matrix * list float) :=
  let '(aug, divisors) := st in
  let* max_row := find_pivot aug n col in
  let* aug := swap_rows aug col max_row in
  let* p := get2 aug col col in
  if near_zero p then Ok (aug, divisors)
  else for_each (range (col + 1) n) (eliminate_row n col) (aug, divisors).

(** Lines 143-150: the body of the back-substitution loop. *)
Definition back_step (aug : matrix) (n i : nat) (st : list float * list float)
  : pyres (list float * list float) :=
  let '(x, divisors) := st in
  let* p := get2 aug i i in
  if near_zero p then
    let* x := set_index x i 0%float in Ok (x, divisors)
  else
    let* v := get2 aug i n in
    let* x := set_index x i v in
    let* x :=
      for_each (range (i + 1) n)
        (fun j x =>
           let* xi := index x i in
           let* a := get2 aug i j in
           let* xj := index x j in
           set_index x i (xi - a * xj)%float)
        x in
    let* xi := index x i in
    let* d := get2 aug i i in
    let* q := py_div xi d in
    let* x := set_index x i q in
    Ok (x, divisors ++ [d]).

(** The whole solver, returning with the solution the eliminated matrix and
    every divisor used. *)
Definition solve_traced (A : matrix) (b : list float)
  : pyres (list float * matrix * list float) :=
  let n := length A in
  let* aug :=
    comprehension (fun '(i, row) => let* bi := index b i in Ok (row ++ [bi]))
                  (enumerate A) in
  let* (aug, divisors) := for_each (range 0 n) (forward_step n) (aug, []) in
  let* (x, divisors) :=
    for_each (rev (range 0 n)) (back_step aug n) (repeat 0%float n, divisors) in
  Ok (x, aug, divisors).

Definition solve_linear_system (A : matrix) (b : list float)
  : pyres (list float) :=
  let* (x, _, _) := solve_traced A b in Ok x.

(** *** extract_features (lines 29-60)

    A shot is a JSON object.  The values of its fields are taken to be JSON
    real numbers, which [json.load] reads as floats, [NaN] and the
    infinities included. *)

Abbreviation shot := (gmap string float).

Definition required_keys : list string :=
  ["cutAngle"; "spinY"; "power"; "angleError"]%string.

(** Line 35: no required key is missing. *)
Definition has_all_keys (keys : list string) (s : shot) : bool :=
  forallb (fun key => bool_decide (is_Some (s !! key))) keys.

(** Lines 38-43: the three features and the target of a shot. *)
Definition shot_values (s : shot) : option (list float * float) :=
  match s !! "cutAngle"%string, s !! "spinY"%string,
        s !! "power"%string, s !! "angleError"%string with
  | Some c, Some sp, Some p, Some e => Some ([c; sp; p], e)
  | _, _, _, _ => None
  end.

(** The loop of lines 34-43: [features] and [targets]. *)
Definition collect_shots (data : list shot) : list (list float) * list float :=
  fold_left
    (fun '(features, targets) s =>
       if negb (has_all_keys required_keys s) then (features, targets)
       else
         match shot_values s with
         | Some (f, t) => (features ++ [f], targets ++ [t])
         | None => (features, targets)
         end)
    data ([], []).

(** [x ** 2] on a float: OverflowError when a finite operand overflows. *)
Definition py_square (x : float) : pyres float :=
  let r := (x * x)%float in
  if is_infinity r && negb (is_infinity x) then Raise OverflowError else Ok r.

(** Lines 56-57: the mean and the standard deviation of the targets that
    are printed. *)
Definition angle_error_statistics (targets : list float)
  : pyres (float * float) :=
  let* mean_err := py_div (py_sum targets) (float_of_nat (length targets)) in
  let* squares :=
    comprehension (fun t => py_square (t - mean_err)%float) targets in
  let* variance := py_div (py_sum squares) (float_of_nat (length targets)) in
  let* std_err := py_sqrt variance in
  Ok (mean_err, std_err).

(** The statistics are computed, for printing, only when a shot was kept
    (line 47); the printing itself does not fail on floats. *)
Definition extract_features (data : list shot)
  : pyres (list (list float) * list float) :=
  let '(features, targets) := collect_shots data in
  match features with
  | [] => Ok (features, targets)
  | _ :: _ =>
      let* _ := angle_error_statistics targets in Ok (features, targets)
  end.

(** *** fit_regression (lines 154-182) *)

(** [matrix_transpose] (lines 94-96). *)
Definition matrix_transpose (M : matrix) : pyres matrix :=
  let* row0 := index M 0 in
  comprehension
    (fun i => comprehension (fun j => get2 M j i) (range 0 (length M)))
    (range 0 (length row0)).

(** [sum(f(k) for k in range(n))]. *)
Definition sum_over (n : nat) (f : nat -> pyres float) : pyres float :=
  let* terms := comprehension f (range 0 n) in Ok (py_sum terms).

(** Lines 173-177: [1 - (ss_res / ss_tot) if ss_tot > 0 else 0]. *)
Definition r_squared_of (ss_res ss_tot : float) : pyres float :=
  if (0 <? ss_tot)%float then
    let* q := py_div ss_res ss_tot in Ok (1 - q)%float
  else Ok 0%float.

Definition fit_regression (X_poly : matrix) (y : list float)
  : pyres (list float * float * float * list float) :=
  let* X_T := matrix_transpose X_poly in
  let* row0 := index X_poly 0 in
  let n_terms := length row0 in
  let* XtX :=
    comprehension
      (fun i => comprehension
         (fun j => sum_over (length X_poly)
            (fun k => let* a := get2 X_T i k in
                      let* b := get2 X_poly k j in Ok (a * b)%float))
         (range 0 n_terms))
      (range 0 n_terms) in
  let* Xty :=
    comprehension
      (fun i => sum_over (length y)
         (fun k => let* a := get2 X_T i k in
                   let* b := index y k in Ok (a * b)%float))
      (range 0 n_terms) in
  let* coeffs := solve_linear_system XtX Xty in
  let* y_pred :=
    comprehension
      (fun i => sum_over (length coeffs)
         (fun j => let* a := get2 X_poly i j in
                   let* c := index coeffs j in Ok (a * c)%float))
      (range 0 (length X_poly)) in
  let* y_mean := py_div (py_sum y) (float_of_nat (length y)) in
  let* ss_res :=
    sum_over (length y)
      (fun i => let* a := index y i in
                let* b := index y_pred i in py_square (a - b)%float) in
  let* ss_tot :=
    sum_over (length y)
      (fun i => let* a := index y i in py_square (a - y_mean)%float) in
  let* r_squared := r_squared_of ss_res ss_tot in
  let* m := py_div ss_res (float_of_nat (length y)) in
  let* rmse := py_sqrt m in
  Ok (coeffs, r_squared, rmse, y_pred).

(** *** generate_javascript (lines 184-262) *)

Section Emitter.

Context (fmt : py_format).

(** Lines 187-207: the header, up to the opening of [predictAngleError]. *)
Definition js_header (degree : Z) (r_squared rmse : float) (n_samples : nat)
  : string :=
  join nl
    ["/**";
     " * AI Angle Error Prediction Model";
     " *";
     " * Generated from " +:+ pretty n_samples +:+ " shot samples";
     " * Polynomial degree: " +:+ pretty degree;
     " * R-squared: " +:+ format_f fmt 4 r_squared;
     " * RMSE: " +:+ format_f fmt 4 rmse +:+ " degrees";
     " *";
     " * Predicts the angle error (in degrees) based on cut angle, spin, and power.";
     " * Use this to adjust aim: subtract the predicted error from your aim angle.";
     " */";
     EmptyString;
     "/**";
     " * Predict the angle error for a shot";
     " * @param {number} cutAngle - Cut angle in degrees (0 = straight, 90 = max)";
     " * @param {number} spinY - Vertical spin (-1 to 1, positive = topspin)";
     " * @param {number} power - Shot power";
     " * @returns {number} Predicted angle error in degrees";
     " */";
     "function predictAngleError(cutAngle, spinY, power) {";
     EmptyString]%string.

(** Lines 209-221: one expression per coefficient that is not negligible. *)
Definition term_expr (coeff : float) (name : string) : string :=
  if String.eqb name "1" then format_f fmt 10 coeff
  else
    let parts := split_char "*" name in
    let js_expr := join " * " parts in
    (format_f fmt 10 coeff +:+ " * " +:+ js_expr)%string.

(** Line 211: the test [abs(coeff) < 1e-10]. *)
Definition negligible (coeff : float) : bool := (abs coeff <? 1e-10)%float.

Definition terms_code (coeffs : list float) (term_names : list string)
  : list string :=
  fold_left
    (fun acc '(coeff, name) =>
       if negligible coeff then acc
       else acc ++ [term_expr coeff name])
    (zip coeffs term_names) [].

(** Lines 223-230: the return statement. *)
Definition return_statement (terms : list string) : string :=
  if decide (length terms <= 3) then
    ("    return " +:+ join " + " terms +:+ ";" +:+ nl)%string
  else
    ("    return (" +:+ nl
     +:+ String.concat EmptyString
           (imap (fun i term =>
                    ((if decide (i = 0) then "        " else "        + ")
                     +:+ term +:+ nl)%string) terms)
     +:+ "    );" +:+ nl)%string.

(** Lines 234-260: the wrapper, the metadata and the export. *)
Definition js_footer (coeffs : list float) (term_names : list string)
    (degree : Z) (r_squared rmse : float) (n_samples : nat) : string :=
  join nl
    [EmptyString;
     "/**";
     " * Calculate aim adjustment to compensate for predicted angle error";
     " * @param {number} cutAngle - Cut angle in degrees";
     " * @param {number} spinY - Vertical spin";
     " * @param {number} power - Shot power";
     " * @returns {number} Angle adjustment in degrees (subtract from aim)";
     " */";
     "function calculateAimAdjustment(cutAngle, spinY, power) {";
     "    return predictAngleError(cutAngle, spinY, power);";
     "}";
     EmptyString;
     "// Model metadata";
     "const ANGLE_MODEL_INFO = {";
     "    degree: " +:+ pretty degree +:+ ",";
     "    rSquared: " +:+ format_f fmt 4 r_squared +:+ ",";
     "    rmse: " +:+ format_f fmt 4 rmse +:+ ",";
     "    nSamples: " +:+ pretty n_samples +:+ ",";
     "    features: ['cutAngle', 'spinY', 'power'],";
     "    coefficients: " +:+ json_dumps fmt (zip term_names coeffs);
     "};";
     EmptyString;
     "// Export for use in modules";
     "if (typeof module !== 'undefined' && module.exports) {";
     "    module.exports = { predictAngleError, calculateAimAdjustment, ANGLE_MODEL_INFO };";
     "}";
     EmptyString]%string.

Definition generate_javascript (coeffs : list float) (term_names : list string)
    (degree : Z) (r_squared rmse : float) (n_samples : nat) : string :=
  (js_header degree r_squared rmse n_samples
   +:+ return_statement (terms_code coeffs term_names)
   +:+ "}" +:+ nl
   +:+ js_footer coeffs term_names degree r_squared rmse n_samples)%string.

End Emitter.

End Simple.

(** ** build_angle_model.py *)

Module Numpy.

(** A two-dimensional numpy array: its rows, and [shape[1]].  Every row of a
    well-formed array has [nd_cols] entries. *)
Record ndarray : Type := mk_ndarray {
  nd_rows : list (list float);
  nd_cols : nat
}.


(** [X[:, idx]]. *)
Definition nd_column (X : ndarray) (idx : nat) : pyres (list float) :=
  if decide (idx < nd_cols X)
  then comprehension (fun row => index row idx) (nd_rows X)
  else Raise IndexError.

(** [term = np.ones(n); for idx in combo: term *= X[:, idx];
    name_parts.append(feature_names[idx])]. *)
Definition np_term (X : ndarray) (combo : list nat)
  : pyres (list float * list string) :=
  for_each combo
    (fun idx '(term, parts) =>
       let* col := nd_column X idx in
       let* name := index Simple.feature_names idx in
       Ok (zip_with (fun t x => (t * x)%float) term col, parts ++ [name]))
    (repeat 1%float (length (nd_rows X)), []).

Definition np_add_term (X : ndarray) (combo : list nat)
    (st : list (list float) * list string)
  : pyres (list (list float) * list string) :=
  let '(terms, term_names) := st in
  let* (term, parts) := np_term X combo in
  Ok (terms ++ [term], term_names ++ [join "*" parts]).

(** [np.column_stack(terms)] for columns of length [n]. *)
Definition column_stack (n : nat) (terms : list (list float))
  : pyres (list (list float)) :=
  comprehension (fun i => comprehension (fun col => index col i) terms)
                (range 0 n).

(** build_angle_model.py, lines 60-92. *)
Definition build_polynomial_features (X : ndarray) (degree : nat)
  : pyres (list (list float) * list string) :=
  let n_samples := length (nd_rows X) in
  let nf := nd_cols X in
  let init := ([repeat 1%float n_samples], ["1"%string]) in
  let* (terms, term_names) :=
    for_each (range 1 (degree + 1))
      (fun d st => for_each (combinations_with_replacement nf d)
                            (np_add_term X) st)
      init in
  let* X_poly := column_stack n_samples terms in
  Ok (X_poly, term_names).

(** *** extract_features (lines 31-58)

    The loop is that of the dependency-free variant.  The features then
    become a two-dimensional array, whose columns are indexed for the
    ranges that are printed: with no shot kept, [np.array([])] has one
    dimension and [X[:, 0]] is an IndexError.  numpy's reductions do not fail
    on floats. *)
Definition extract_features (data : list Simple.shot)
  : pyres (ndarray * list float) :=
  let '(features, targets) := Simple.collect_shots data in
  match features with
  | [] => Raise IndexError
  | _ :: _ => Ok (mk_ndarray features 3, targets)
  end.

(** *** fit_regression (lines 94-108), for any least-squares routine
    [lstsq] standing for [np.linalg.lstsq(X_poly, y, rcond=None)[0]].
    numpy arithmetic does not raise: a division by zero yields an infinity or
    a NaN. *)

Definition np_sum (l : list float) : float := py_sum l.

Definition np_mean (l : list float) : float :=
  (np_sum l / float_of_nat (length l))%float.

Definition dot (row coeffs : list float) : float :=
  np_sum (zip_with (fun a c => (a * c)%float) row coeffs).

(** Lines 99-103. *)
Definition r_squared_of (ss_res ss_tot : float) : float :=
  if (0 <? ss_tot)%float then (1 - ss_res / ss_tot)%float else 0%float.

Definition fit_regression
    (lstsq : list (list float) -> list float -> list float)
    (X_poly : list (list float)) (y : list float)
  : list float * float * float * list float :=
  let coeffs := lstsq X_poly y in
  let y_pred := map (fun row => dot row coeffs) X_poly in
  let resid2 := zip_with (fun a b => ((a - b) * (a - b))%float) y y_pred in
  let ss_res := np_sum resid2 in
  let y_mean := np_mean y in
  let ss_tot := np_sum (map (fun a => ((a - y_mean) * (a - y_mean))%float) y) in
  let r_squared := r_squared_of ss_res ss_tot in
  let rmse := sqrt (np_mean resid2) in
  (coeffs, r_squared, rmse, y_pred).

(** *** generate_javascript (lines 110-193): the text of the dependency-free
    variant, with [coeffs.tolist()] given to [json.dumps]. *)
Definition generate_javascript := Simple.generate_javascript.

End Numpy.

(** ** build_angle_model_piecewise.py *)

Module Piecewise.

Definition CUT_BREAK_DEG : float := 30%float.

(** One record of the input, as the four arrays [cut], [power], [dist],
    [err] hold it. *)
Record shot : Type := mk_shot {
  cutAngle : float;
  power : float;
  cueBallToTargetDist : float;
  angleError : float
}.

Section Metrics.

(** numpy's reductions and powers are the library's, not code of the script
    (its summation order and its [**] are not fixed by the script): the
    metrics are stated for any [np.sum] and any [x ** k]. *)
Context (np_sum : list float -> float) (np_power : float -> Z -> float).

(** The two coefficient vectors [np.linalg.lstsq] returned (lines 56, 77):
    four coefficients of the cubic, five of the high-cut model. *)
Context (coef_low : float * float * float * float)
        (coef_high : float * float * float * float * float).

(** Lines 82-96. *)
Definition predict (c p d : float) : float :=
  let '(l0, l1, l2, l3) := coef_low in
  let '(h0, h1, h2, h3, h4) := coef_high in
  if (c <=? CUT_BREAK_DEG)%float then
    (l0 + l1 * c + l2 * np_power c 2 + l3 * np_power c 3)%float
  else
    (h0 + h1 * c + h2 * p + h3 * d + h4 * c * d)%float.

(** [err.mean()]. *)
Definition np_mean (l : list float) : float :=
  (np_sum l / float_of_nat (length l))%float.

(** Lines 98-103: [resid], [ss_res], [ss_tot] and
    [r2 = 1.0 - ss_res / ss_tot]. *)
Definition resid (data : list shot) : list float :=
  map (fun s => (angleError s
                 - predict (cutAngle s) (power s) (cueBallToTargetDist s))%float)
      data.

Definition ss_res (data : list shot) : float :=
  np_sum (map (fun r => np_power r 2) (resid data)).

Definition ss_tot (data : list shot) : float :=
  let err := map angleError data in
  let m := np_mean err in
  np_sum (map (fun e => np_power (e - m) 2) err).

Definition r2 (data : list shot) : float :=
  (1 - ss_res data / ss_tot data)%float.

End Metrics.

End Piecewise.

(** ** build_angle_model_split.py *)

Module Split.

(** *** Configuration (lines 19-41) *)

Definition TARGET : string := "angleError".
Definition POWER_BRACKETS : option (list (float * float)) := None.
Definition AUTO_BRACKETS_N : nat := 55.
Definition SPLIT_MIN : Z := 10.
Definition SPLIT_MAX : Z := 60.
Definition SPLIT_STEP : Z := 1.
Definition POLY_DEGREE : nat := 3.
Definition RIDGE_ALPHA : float := 1%float.
Definition TEST_SIZE : float := 0.2%float.
Definition RANDOM_SEED : Z := 42.
Definition MIN_SAMPLES_PER_BRACKET : nat := 10.
Definition MIN_SAMPLES_PER_SIDE : nat := 5.
Definition TARGET_CLIP : float := 15%float.

(** A row of the feature matrix: [[cutAngle, power]]. *)
Abbreviation sample := (float * float)%type.

(** scikit-learn, as the script uses it.  [fit degree alpha X y] stands for
    [build_poly_ridge(degree, alpha).fit(X, y)]; [predict] is the fitted
    pipeline applied to one row; [poly_ridge_coeffs] is
    [zip(poly.get_feature_names_out(), ridge.coef_)].  The library is not
    code of the scripts: they are stated for any implementation of it. *)
Record sklearn (Model : Type) : Type := mk_sklearn {
  fit : nat -> float -> list sample -> list float -> Model;
  predict : Model -> sample -> float;
  poly_ridge_coeffs : Model -> list (string * float);
  train_test_split :
    list sample -> list float -> float -> Z ->
    list sample * list sample * list float * list float;
  mean_squared_error : list float -> list float -> float;
  r2_score : list float -> list float -> float;
  mean_absolute_error : list float -> list float -> float
}.
Arguments fit {Model} _ _ _ _ _.
Arguments predict {Model} _ _ _.
Arguments poly_ridge_coeffs {Model} _ _.
Arguments train_test_split {Model} _ _ _ _ _.
Arguments mean_squared_error {Model} _ _ _.
Arguments r2_score {Model} _ _ _.
Arguments mean_absolute_error {Model} _ _ _.

(** *** Reading the rows (main, lines 303-322) *)

Section Loader.

(** [float(s)] on a string: [None] stands for ValueError. *)
Context (parse_float : string -> option float).

(** [float(v)] on a JSON value. *)
Definition py_float (v : json) : pyres float :=
  match v with
  | JNull => Raise TypeError
  | JBool b => Ok (if b then 1 else 0)%float
  | JInt z =>
      let f := float_of_Z z in
      if is_infinity f then Raise OverflowError else Ok f
  | JFloat f => Ok f
  | JStr s =>
      match parse_float s with
      | Some f => Ok f
      | None => Raise ValueError
      end
  | JList _ => Raise TypeError
  | JDict _ => Raise TypeError
  end.

(** The [try] block of lines 307-312: TypeError and ValueError skip the
    row, any other exception leaves the loop. *)
Definition try_convert (c p y : json) : pyres (option (float * float * float)) :=
  match (let* cut := py_float c in
         let* power := py_float p in
         let* target := py_float y in
         Ok (cut, power, target)) with
  | Ok t => Ok (Some t)
  | Raise TypeError => Ok None
  | Raise ValueError => Ok None
  | Raise e => Raise e
  end.

(** One row: [None] when the row is skipped. *)
Definition convert_row (r : gmap string json)
  : pyres (option (float * float * float)) :=
  match r !! "cutAngle"%string, r !! "power"%string, r !! TARGET with
  | Some c, Some p, Some y => try_convert c p y
  | _, _, _ => Ok None
  end.

(** Lines 303-315: [X_all], [y_all], [p_all]. *)
Definition load_samples (rows : list (gmap string json))
  : pyres (list sample * list float * list float) :=
  for_each rows
    (fun r '(X_all, y_all, p_all) =>
       let* converted := convert_row r in
       match converted with
       | None => Ok (X_all, y_all, p_all)
       | Some (cut, power, y) =>
           Ok (X_all ++ [(cut, power)], y_all ++ [y], p_all ++ [power])
       end)
    ([], [], []).

End Loader.

(** *** make_brackets_auto (lines 69-77) *)

(** [np.min] and [np.max]: a NaN anywhere makes the result NaN; an empty
    array is a ValueError. *)
Definition np_extreme (better : float -> float -> bool) (l : list float)
  : pyres float :=
  match l with
  | [] => Raise ValueError
  | x :: l' =>
      Ok (fold_left
            (fun acc y =>
               if is_nan acc then acc
               else if is_nan y then y
               else if better y acc then y else acc)
            l' x)
  end.

Definition np_min : list float -> pyres float :=
  np_extreme (fun y acc => (y <? acc)%float).
Definition np_max : list float -> pyres float :=
  np_extreme (fun y acc => (acc <? y)%float).

(** [np.linspace(lo, hi, n + 1)]: [n] points [i * step + lo] and the end
    point [hi] itself; the single point [lo] when [n = 0]. *)
Definition linspace (lo hi : float) (n : nat) : list float :=
  match n with
  | 0 => [lo]
  | _ =>
      let delta := (hi - lo)%float in
      let step := (delta / float_of_nat n)%float in
      map (fun i =>
             if (step =? 0)%float
             then (float_of_nat i / float_of_nat n * delta + lo)%float
             else (float_of_nat i * step + lo)%float)
          (seq 0 n)
      ++ [hi]
  end.

(** Line 76: [brackets[-1] = (brackets[-1][0], brackets[-1][1] + 1e-9)]. *)
Definition nudge_last (brackets : list (float * float))
  : pyres (list (float * float)) :=
  match last brackets with
  | None => Raise IndexError
  | Some (a, b) =>
      Ok (<[length brackets - 1 := (a, (b + 1e-9)%float)]> brackets)
  end.

Definition make_brackets_auto (powers : list float) (n : nat)
  : pyres (list (float * float)) :=
  let* lo := np_min powers in
  let* hi := np_max powers in
  if (hi <=? lo)%float then Ok [(lo, (hi + 1e-9)%float)]
  else
    let edges := linspace lo hi n in
    let* brackets :=
      comprehension
        (fun i => let* a := index edges i in
                  let* b := index edges (i + 1) in Ok (a, b))
        (range 0 n) in
    nudge_last brackets.

(** Line 336: [(p_all >= pmin) & (p_all < pmax)]. *)
Definition in_bracket (pmin pmax p : float) : bool :=
  (pmin <=? p)%float && (p <? pmax)%float.

(** *** The split search (lines 80-98, 344-366) *)

(** [range(start, stop, step)]. *)
Definition py_range (start stop step : Z) : pyres (list Z) :=
  if (step =? 0)%Z then Raise ValueError
  else
    let count :=
      (if 0 <? step then (stop - start + step - 1) / step
       else (start - stop - step - 1) / (- step))%Z in
    Ok (map (fun i => (start + Z.of_nat i * step)%Z) (seq 0 (Z.to_nat count))).

(** [rmse] (lines 47-48). *)
Definition rmse {Model : Type} (sk : sklearn Model)
    (y_true y_pred : list float) : pyres float :=
  py_sqrt (mean_squared_error sk y_true y_pred).

Section Search.

Context {Model : Type} (sk : sklearn Model).

(** [mask_left = X[:, 0] < split_angle]. *)
Definition goes_left (split_angle : Z) (x : sample) : bool :=
  (fst x <? float_of_Z split_angle)%float.

Definition left_rows {A : Type} (split_angle : Z) (rows : list (sample * A))
  : list (sample * A) :=
  filter (fun r => goes_left split_angle (fst r) = true) rows.

Definition right_rows {A : Type} (split_angle : Z) (rows : list (sample * A))
  : list (sample * A) :=
  filter (fun r => goes_left split_angle (fst r) = false) rows.

(** [fit_piecewise_cutangle] (lines 80-88): [None] when a side is too
    small. *)
Definition fit_piecewise_cutangle (X_train : list sample)
    (y_train : list float) (split_angle : Z) : option (Model * Model) :=
  let rows := zip X_train y_train in
  let l := left_rows split_angle rows in
  let r := right_rows split_angle rows in
  if decide (length l < MIN_SAMPLES_PER_SIDE
             \/ length r < MIN_SAMPLES_PER_SIDE)
  then None
  else Some (fit sk POLY_DEGREE RIDGE_ALPHA (map fst l) (map snd l),
             fit sk POLY_DEGREE RIDGE_ALPHA (map fst r) (map snd r)).

(** [predict_piecewise_cutangle] (lines 91-98). *)
Definition predict_piecewise_cutangle (X : list sample) (split_angle : Z)
    (model_left model_right : Model) : list float :=
  map (fun x => if goes_left split_angle x then predict sk model_left x
                else predict sk model_right x) X.

Record candidate : Type := mk_candidate {
  c_split : Z;
  c_rmse : float;
  c_mL : Model;
  c_mR : Model
}.

(** The body of the loop over [split] (lines 350-362). *)
Definition search_step (X_train X_test : list sample)
    (y_train y_test : list float) (split : Z) (best : option candidate)
  : pyres (option candidate) :=
  match fit_piecewise_cutangle X_train y_train split with
  | None => Ok best
  | Some (mL, mR) =>
      let pred := predict_piecewise_cutangle X_test split mL mR in
      let* score := rmse sk y_test pred in
      match best with
      | None => Ok (Some (mk_candidate split score mL mR))
      | Some b =>
          if (score <? c_rmse b)%float
          then Ok (Some (mk_candidate split score mL mR))
          else Ok best
      end
  end.

(** Lines 348-362. *)
Definition search_split (X_train X_test : list sample)
    (y_train y_test : list float) : pyres (option candidate) :=
  let* splits := py_range SPLIT_MIN (SPLIT_MAX + 1) SPLIT_STEP in
  for_each splits (search_step X_train X_test y_train y_test) None.

(** An entry of [results] (lines 381-395). *)
Record result : Type := mk_result {
  bi : nat;
  pmin : float;
  pmax : float;
  split : Z;
  res_rmse : float;
  r2 : float;
  rmse_left : float;
  rmse_right : float;
  mL : Model;
  mR : Model;
  n : nat
}.

(** [rmse(y[mask], pred[mask]) if np.any(mask) else nan]. *)
Definition side_rmse (side : bool) (split : Z) (X_test : list sample)
    (y_test pred : list float) : pyres float :=
  let rows :=
    filter (fun r => goes_left split (fst r) = side)
           (zip X_test (zip y_test pred)) in
  match rows with
  | [] => Ok nan
  | _ => rmse sk (map (fun r => fst (snd r)) rows)
                 (map (fun r => snd (snd r)) rows)
  end.

(** Lines 336-338: [Xb] and [yb], the samples whose power lies in the
    bracket. *)
Definition bracket_data (X_all : list sample) (y_all p_all : list float)
    (pmin pmax : float) : list sample * list float :=
  let rows :=
    filter (fun r => in_bracket pmin pmax (fst r) = true)
           (zip p_all (zip X_all y_all)) in
  (map (fun r => fst (snd r)) rows, map (fun r => snd (snd r)) rows).

(** The body of the loop over the brackets (lines 335-407).  The state is
    [results] with the held-out targets and predictions gathered so far. *)
Definition bracket_step (X_all : list sample) (y_all p_all : list float)
    (b : nat * (float * float))
    (st : list result * list (list float) * list (list float))
  : pyres (list result * list (list float) * list (list float)) :=
  let '(results, y_test_all, y_pred_all) := st in
  let '(bi, (pmin, pmax)) := b in
  let '(Xb, yb) := bracket_data X_all y_all p_all pmin pmax in
  if decide (length yb < MIN_SAMPLES_PER_BRACKET) then Ok st
  else
    let '(X_train, X_test, y_train, y_test) :=
      train_test_split sk Xb yb TEST_SIZE RANDOM_SEED in
    let* best := search_split X_train X_test y_train y_test in
    match best with
    | None => Ok st
    | Some b =>
        let pred :=
          predict_piecewise_cutangle X_test (c_split b) (c_mL b) (c_mR b) in
        let* br_rmse := rmse sk y_test pred in
        let br_r2 := r2_score sk y_test pred in
        let* rl := side_rmse true (c_split b) X_test y_test pred in
        let* rr := side_rmse false (c_split b) X_test y_test pred in
        Ok (results ++ [mk_result bi pmin pmax (c_split b) br_rmse br_r2
                                  rl rr (c_mL b) (c_mR b) (length yb)],
            y_test_all ++ [y_test], y_pred_all ++ [pred])
    end.

Record metrics : Type := mk_metrics {
  m_r2 : float;
  m_rmse : float;
  m_mae : float
}.

(** Lines 409-418. *)
Definition overall_metrics (results : list result)
    (y_test_all y_pred_all : list (list float)) : pyres metrics :=
  match results, y_test_all with
  | _ :: _, _ :: _ =>
      let yt := concat y_test_all in
      let yp := concat y_pred_all in
      let* e := rmse sk yt yp in
      Ok (mk_metrics (r2_score sk yt yp) e (mean_absolute_error sk yt yp))
  | _, _ => Ok (mk_metrics 0 0 0)
  end.

End Search.

(** *** The JavaScript text (lines 101-289) *)

(** A factor and a term of an emitted polynomial, as [term_to_js] builds
    them before printing. *)
Inductive js_factor : Type :=
| JsVar (name : string)
| JsPow (base : string) (pw : Z).

Inductive js_term : Type :=
| JsOne
| JsProd (factors : list js_factor).

(** [xmap.get(tok, tok)] for [xmap = {"x0": "cutAngle", "x1": "power"}]. *)
Definition repl_var (tok : string) : string :=
  if String.eqb tok "x0" then "cutAngle"%string
  else if String.eqb tok "x1" then "power"%string
  else tok.

Definition digit_value (a : ascii) : option Z :=
  let k := nat_of_ascii a in
  if decide (48 <= k <= 57) then Some (Z.of_nat (k - 48)) else None.

Fixpoint parse_digits (acc : Z) (s : string) : option Z :=
  match s with
  | EmptyString => Some acc
  | String a s' =>
      match digit_value a with
      | Some d => parse_digits (10 * acc + d) s'
      | None => None
      end
  end.

(** [int(s)] for an optionally signed run of decimal digits; [None] stands
    for ValueError. *)
Definition parse_int (s : string) : option Z :=
  match s with
  | EmptyString => None
  | String "-" (String a s') => Z.opp <$> parse_digits 0 (String a s')
  | String "+" (String a s') => parse_digits 0 (String a s')
  | _ => parse_digits 0 s
  end.

Fixpoint contains_char (c : ascii) (s : string) : bool :=
  match s with
  | EmptyString => false
  | String a s' => Ascii.eqb a c || contains_char c s'
  end.

(** One part of a feature name (lines 125-131). *)
Definition part_to_js (p : string) : pyres js_factor :=
  if contains_char "^" p then
    match split_char "^" p with
    | [base; pw] =>
        match parse_int pw with
        | Some k => Ok (JsPow (repl_var base) k)
        | None => Raise ValueError
        end
    | _ => Raise ValueError
    end
  else Ok (JsVar (repl_var p)).

(** [term_to_js] (lines 120-132), before the factors are joined. *)
Definition term_to_js (term : string) : pyres js_term :=
  if String.eqb term "1" then Ok JsOne
  else
    let* factors := comprehension part_to_js (split_char " " term) in
    Ok (JsProd factors).

Definition render_factor (f : js_factor) : string :=
  match f with
  | JsVar name => name
  | JsPow base pw => ("Math.pow(" +:+ base +:+ ", " +:+ pretty pw +:+ ")")%string
  end.

(** The text [term_to_js] returns. *)
Definition render_term (t : js_term) : string :=
  match t with
  | JsOne => "1.0"%string
  | JsProd factors =>
      ("(" +:+ join " * " (map render_factor factors) +:+ ")")%string
  end.

(** [s.rstrip(" +")]. *)
Fixpoint rstrip_plus (s : string) : string :=
  match s with
  | EmptyString => EmptyString
  | String a s' =>
      match rstrip_plus s' with
      | EmptyString =>
          if Ascii.eqb a " " || Ascii.eqb a "+" then EmptyString
          else String a EmptyString
      | rest => String a rest
      end
  end.

(** [lines[-1] = lines[-1].rstrip(" +")]. *)
Definition strip_last (lines : list string) : list string :=
  match last lines with
  | None => lines
  | Some l => <[length lines - 1 := rstrip_plus l]> lines
  end.

Section Emitter.

Context {Model : Type} (sk : sklearn Model) (fmt : py_format).

(** [js_from_poly_ridge] (lines 109-139). *)
Definition js_from_poly_ridge (model : Model) (func_name : string)
  : pyres string :=
  let* body :=
    comprehension
      (fun '(name, c) =>
         let* t := term_to_js name in
         Ok ("    " +:+ format_12g fmt c +:+ " * " +:+ render_term t
             +:+ " +")%string)
      (poly_ridge_coeffs sk model) in
  let lines :=
    [("function " +:+ func_name +:+ "(cutAngle, power) {")%string;
     "  return ("%string] ++ body in
  Ok (join nl (strip_last lines ++ ["  );"; "}"]%string)).

Definition clip_lines (clip_val : float) : list string :=
  [("    if (y > " +:+ format_g fmt clip_val +:+ ") y = "
    +:+ format_g fmt clip_val +:+ ";")%string;
   ("    else if (y < -" +:+ format_g fmt clip_val +:+ ") y = -"
    +:+ format_g fmt clip_val +:+ ";")%string;
   "    return y;"%string;
   "  }"%string].

(** The routing block both the bracket chain and the fallback write. *)
Definition route_lines (r : result (Model := Model)) (clip_val : float)
  : list string :=
  [("    const split = " +:+ pretty (split r) +:+ ";")%string;
   "    let y = (cutAngle < split)"%string;
   ("      ? __predictAngleError_b" +:+ pretty (bi r)
    +:+ "_left(cutAngle, power)")%string;
   ("      : __predictAngleError_b" +:+ pretty (bi r)
    +:+ "_right(cutAngle, power);")%string]
  ++ clip_lines clip_val.

(** Lines 173-185: the two functions of one bracket. *)
Definition bracket_functions (r : result (Model := Model))
  : pyres (list string) :=
  let fL := ("__predictAngleError_b" +:+ pretty (bi r) +:+ "_left")%string in
  let fR := ("__predictAngleError_b" +:+ pretty (bi r) +:+ "_right")%string in
  let* js_left := js_from_poly_ridge (mL r) fL in
  let* js_right := js_from_poly_ridge (mR r) fR in
  Ok [("// Bracket " +:+ pretty (bi r) +:+ ": power in ["
       +:+ repr_float fmt (pmin r) +:+ ", " +:+ repr_float fmt (pmax r)
       +:+ ") (n=" +:+ pretty (n r) +:+ ", split=" +:+ pretty (split r)
       +:+ ", rmse=" +:+ format_f fmt 4 (res_rmse r) +:+ ")")%string;
      js_left; EmptyString; js_right; EmptyString].

(** Lines 203-219: one link of the [if / else if] chain. *)
Definition chain_lines (clip_val : float) (idx : nat)
    (r : result (Model := Model)) : list string :=
  let cond := ("(power >= " +:+ repr_float fmt (pmin r) +:+ " && power < "
               +:+ repr_float fmt (pmax r) +:+ ")")%string in
  [(if decide (idx = 0) then "  if " +:+ cond +:+ " {"
    else "  else if " +:+ cond +:+ " {")%string]
  ++ route_lines r clip_val.

(** Lines 221-248: the fallback. *)
Definition fallback_lines (results : list (result (Model := Model)))
    (clip_val : float) : list string :=
  "  // fallback: clamp to nearest bracket"%string ::
  match results, last results with
  | first :: _, Some final =>
      [("  if (power < " +:+ repr_float fmt (pmin first) +:+ ") {")%string]
      ++ route_lines first clip_val
      ++ ["  {"%string]
      ++ route_lines final clip_val
  | _, _ => ["  return 0;"%string]
  end.

(** The line that carries the time of the run (line 161). *)
Definition generated_line (now : string) : string :=
  (" * Generated (UTC): " +:+ now)%string.

(** Lines 153-160: the header before the time stamp. *)
Definition header_before (input_filename : string) (poly_degree : nat)
    (clip_val : float) : list string :=
  ["/* eslint-disable no-var, prefer-const */";
   "/**";
   " * Auto-generated angle error model.";
   " *";
   " * Trained on: " +:+ input_filename;
   " * Features: cutAngle, spinY, power";
   " * Model: piecewise PolynomialFeatures(degree=" +:+ pretty poly_degree
     +:+ ") + Ridge";
   " * Output clip: [-" +:+ format_g fmt clip_val +:+ ", "
     +:+ format_g fmt clip_val +:+ "] degrees"]%string.

(** Lines 162-169. *)
Definition header_after (m : metrics) : list string :=
  [" * Metrics (overall holdout test, random_state=42):";
   " *   rSquared: " +:+ format_f fmt 6 (m_r2 m);
   " *   rmse: " +:+ format_f fmt 6 (m_rmse m);
   " *   mae: " +:+ format_f fmt 6 (m_mae m);
   " *";
   " * Generated by build_angle_model_nn.py";
   " */";
   EmptyString]%string.

(** Lines 188-200. *)
Definition wrapper_open : list string :=
  ["/**";
   " * Predict the angle error for a shot";
   " * @param {number} cutAngle - Cut angle in degrees (0 = straight, 90 = max)";
   " * @param {number} spinY - Vertical spin (-1 to 1, positive = topspin)";
   " * @param {number} power - Shot power";
   " * @returns {number} Predicted angle error in degrees";
   " */";
   "function predictAngleError(cutAngle, spinY, power) {";
   "  // basic input sanitization (avoid NaN/Infinity propagating)";
   "  if (!Number.isFinite(cutAngle) || !Number.isFinite(spinY) || !Number.isFinite(power)) return 0;";
   EmptyString;
   "  // NOTE: spinY is accepted for compatibility but not used by this model.";
   EmptyString]%string.

(** Lines 248-288. *)
Definition trailer (results : list (result (Model := Model)))
    (n_samples_total poly_degree : nat) (clip_val : float) (m : metrics)
  : list string :=
  ["}";
   EmptyString;
   "/**";
   " * Calculate aim adjustment to compensate for predicted angle error";
   " * @param {number} cutAngle - Cut angle in degrees";
   " * @param {number} spinY - Vertical spin";
   " * @param {number} power - Shot power";
   " * @returns {number} Angle adjustment in degrees (subtract from aim)";
   " */";
   "function calculateAimAdjustment(cutAngle, spinY, power) {";
   "  return predictAngleError(cutAngle, spinY, power);";
   "}";
   EmptyString;
   "// Model metadata";
   "const ANGLE_MODEL_INFO = {";
   "  modelType: " +:+ dq +:+ "piecewise_poly_ridge" +:+ dq +:+ ",";
   "  degree: " +:+ pretty poly_degree +:+ ",";
   "  clip: " +:+ format_g fmt clip_val +:+ ",";
   "  nSamples: " +:+ pretty n_samples_total +:+ ",";
   "  features: [" +:+ dq +:+ "cutAngle" +:+ dq +:+ ", " +:+ dq +:+ "spinY"
     +:+ dq +:+ ", " +:+ dq +:+ "power" +:+ dq +:+ "],";
   "  piecewise: {";
   "    brackets: ["]%string
  ++ map (fun r =>
            ("      { pmin: " +:+ repr_float fmt (pmin r) +:+ ", pmax: "
             +:+ repr_float fmt (pmax r) +:+ ", split: " +:+ pretty (split r)
             +:+ ", n: " +:+ pretty (n r) +:+ " },")%string) results
  ++ ["    ]";
      "  },";
      "  metrics: {";
      "    rSquared: " +:+ format_f fmt 6 (m_r2 m) +:+ ",";
      "    rmse: " +:+ format_f fmt 6 (m_rmse m) +:+ ",";
      "    mae: " +:+ format_f fmt 6 (m_mae m);
      "  }";
      "};";
      EmptyString;
      "// Export for use in modules";
      "if (typeof module !== " +:+ dq +:+ "undefined" +:+ dq
        +:+ " && module.exports) {";
      "  module.exports = { predictAngleError, calculateAimAdjustment, ANGLE_MODEL_INFO };";
      "}";
      EmptyString]%string.

(** Everything [build_js] appends after the time stamp. *)
Definition lines_after (results : list (result (Model := Model)))
    (n_samples_total poly_degree : nat) (clip_val : float) (m : metrics)
  : pyres (list string) :=
  let* functions := comprehension bracket_functions results in
  Ok (header_after m
      ++ concat functions
      ++ wrapper_open
      ++ concat (imap (chain_lines clip_val) results)
      ++ fallback_lines results clip_val
      ++ trailer results n_samples_total poly_degree clip_val m).

(** [build_js] (lines 142-289); [now] is what
    [datetime.utcnow().strftime("%Y-%m-%d %H:%M:%SZ")] returned. *)
Definition build_js (results : list (result (Model := Model)))
    (input_filename : string) (n_samples_total poly_degree : nat)
    (clip_val : float) (m : metrics) (now : string) : pyres string :=
  let* rest := lines_after results n_samples_total poly_degree clip_val m in
  Ok (join nl (header_before input_filename poly_degree clip_val
               ++ [generated_line now] ++ rest)).

(** *** main (lines 292-431), from the parsed rows to the text written *)

Definition main (parse_float : string -> option float)
    (rows : list (gmap string json)) (input_filename : string) (now : string)
  : pyres string :=
  let* (X_all, y_all, p_all) := load_samples parse_float rows in
  if decide (length X_all < 200) then Raise RuntimeError
  else
    let* brackets :=
      match POWER_BRACKETS with
      | Some bs => Ok bs
      | None => make_brackets_auto p_all AUTO_BRACKETS_N
      end in
    let* (results, y_test_all, y_pred_all) :=
      for_each (enumerate brackets) (bracket_step sk X_all y_all p_all)
               ([], [], []) in
    let* overall := overall_metrics sk results y_test_all y_pred_all in
    build_js results input_filename (length X_all) POLY_DEGREE TARGET_CLIP
             overall now.

End Emitter.

End Split.

(** ** The JavaScript that build_js writes, run as a program

    What the emitted functions compute (lines 134-138 and 195-247 of
    build_angle_model_split.py), on JavaScript numbers.  [None] stands for an
    evaluation that throws: a name that is not a parameter of the function,
    or a body with no term. *)

Module Artifact.

Section Engine.

Context {Model : Type} (sk : Split.sklearn Model).

(** Two things are the engine's and not the script's: [Math.pow(x, k)], and
    the number read back from the text [f"{c:.12g}"] of a coefficient. *)
Context (math_pow : float -> Z -> float) (literal : float -> float).

(** The parameters of an emitted bracket function are [cutAngle] and
    [power]. *)
Definition identifier (cutAngle power : float) (name : string)
  : option float :=
  if String.eqb name "cutAngle" then Some cutAngle
  else if String.eqb name "power" then Some power
  else None.

Definition eval_factor (cutAngle power : float) (f : Split.js_factor)
  : option float :=
  match f with
  | Split.JsVar name => identifier cutAngle power name
  | Split.JsPow base pw =>
      match identifier cutAngle power base with
      | Some x => Some (math_pow x pw)
      | None => None
      end
  end.

(** [1.0], or the product [(f1 * f2 * ...)] from left to right. *)
Definition eval_term (cutAngle power : float) (t : Split.js_term)
  : option float :=
  match t with
  | Split.JsOne => Some 1%float
  | Split.JsProd [] => None
  | Split.JsProd (f :: fs) =>
      fold_left
        (fun acc g =>
           match acc, eval_factor cutAngle power g with
           | Some a, Some v => Some (a * v)%float
           | _, _ => None
           end)
        fs (eval_factor cutAngle power f)
  end.

(** One line [c * term] of the body. *)
Definition eval_line (cutAngle power : float) (line : string * float)
  : option float :=
  match Split.term_to_js line.1 with
  | Ok t =>
      match eval_term cutAngle power t with
      | Some v => Some (literal line.2 * v)%float
      | None => None
      end
  | Raise _ => None
  end.

(** [__predictAngleError_b<i>_left] or [_right]: the sum of the lines, from
    left to right. *)
Definition bracket_function (model : Model) (cutAngle power : float)
  : option float :=
  match Split.poly_ridge_coeffs sk model with
  | [] => None
  | line :: lines =>
      fold_left
        (fun acc l =>
           match acc, eval_line cutAngle power l with
           | Some a, Some v => Some (a + v)%float
           | _, _ => None
           end)
        lines (eval_line cutAngle power line)
  end.

(** Lines 216-217: [if (y > clip) y = clip; else if (y < -clip) y = -clip;]. *)
Definition clamp (clip y : float) : float :=
  if (clip <? y)%float then clip
  else if (y <? - clip)%float then (- clip)%float
  else y.

(** Lines 212-218: the block that evaluates one bracket.  [clip] is the
    number read from the text [f"{clip_val:g}"]. *)
Definition route (r : Split.result (Model := Model))
    (clip cutAngle power : float) : option float :=
  match (if (cutAngle <? float_of_Z (Split.split r))%float
         then bracket_function (Split.mL r) cutAngle power
         else bracket_function (Split.mR r) cutAngle power) with
  | Some y => Some (clamp clip y)
  | None => None
  end.

(** [predictAngleError] (lines 195-247). *)
Definition predictAngleError (results : list (Split.result (Model := Model)))
    (clip cutAngle spinY power : float) : option float :=
  if negb (is_finite cutAngle) || negb (is_finite spinY)
     || negb (is_finite power)
  then Some 0%float
  else
    match List.find
            (fun r => Split.in_bracket (Split.pmin r) (Split.pmax r) power)
            results with
    | Some r => route r clip cutAngle power
    | None =>
        match results, last results with
        | first :: _, Some final =>
            if (power <? Split.pmin first)%float
            then route first clip cutAngle power
            else route final clip cutAngle power
        | _, _ => Some 0%float
        end
    end.

End Engine.

End Artifact.

(** ** Vocabulary for stating what the feature expansion returns *)






(** ** Vocabulary for the loaders *)




(** ** Vocabulary for the brackets and the split search *)

(** The number of brackets a power value falls in. *)
Definition brackets_holding (bs : list (float * float)) (p : float) : nat :=
  length (filter (fun b => Split.in_bracket b.1 b.2 p = true) bs).

(** The held-out score of a candidate threshold: [None] when the candidate
    is rejected for a side that is too small. *)
Definition split_score {Model : Type} (sk : Split.sklearn Model)
    (X_train X_test : list (float * float)) (y_train y_test : list float)
    (s : Z) : option (pyres float) :=
  match Split.fit_piecewise_cutangle sk X_train y_train s with
  | None => None
  | Some (mL, mR) =>
      Some (Split.rmse sk y_test
              (Split.predict_piecewise_cutangle sk X_test s mL mR))
  end.


(** ** Vocabulary for the linear solver *)

(** An augmented system of [n] equations: [n] rows of [n + 1] entries. *)
Definition augmented (n : nat) (M : Simple.matrix) : Prop :=
  length M = n /\ Forall (fun row => length row = S n) M.

(** ** Vocabulary for the emitted dispatcher *)




(** ** Sample inputs for the examples *)

(** Fixed-point rendering [f"{x:.Nf}"] by exact decimal expansion of the
    double, rounded half to even. *)
Definition round_half_even (num den : Z) : Z :=
  let q := (num / den)%Z in
  let r := (num mod den)%Z in
  if (2 * r <? den)%Z then q
  else if (den <? 2 * r)%Z then (q + 1)%Z
  else if Z.even q then q else (q + 1)%Z.

Definition fixed_point (N : nat) (negative : bool) (scaled : Z) : string :=
  let digits := pretty (Z.to_N scaled) in
  let padded :=
    (String.concat EmptyString
       (repeat "0"%string (S N - String.length digits)) +:+ digits)%string in
  let cut := String.length padded - N in
  ((if negative then "-" else EmptyString)
   +:+ substring 0 cut padded
   +:+ (if decide (N = 0) then EmptyString
        else "." +:+ substring cut N padded))%string.

Definition exact_format_f (N : nat) (x : float) : string :=
  match Prim2SF x with
  | S754_nan => "nan"%string
  | S754_infinity s => if s then "-inf"%string else "inf"%string
  | S754_zero s => fixed_point N s 0
  | S754_finite s m e =>
      let num := (Z.pos m * 10 ^ Z.of_nat N)%Z in
      fixed_point N s
        (if (0 <=? e)%Z then (num * 2 ^ e)%Z
         else round_half_even num (2 ^ (- e))%Z)
  end.

(** A formatter to run the emitters on: exact fixed-point rendering; the
    renderings the examples do not depend on are placeholders. *)
Definition sample_format : py_format :=
  mk_py_format exact_format_f
               (fun _ => "<g>"%string) (fun _ => "<.12g>"%string)
               (fun _ => "<repr>"%string) (fun _ => "{}"%string).


(** Three coefficients, each of magnitude below [1e-10]. *)
Definition negligible_coeffs : list float := [0; 1e-11; -5e-11]%float.

(** Summation from left to right and powers by repeated multiplication, to
    run the metrics of the piecewise script on small inputs. *)
Definition sum_left (l : list float) : float :=
  fold_left (fun acc x => (acc + x)%float) l 0%float.

Definition power_by_products (x : float) (k : Z) : float :=
  fold_left (fun acc _ => (acc * x)%float) (seq 0 (Z.to_nat k)) 1%float.

(** Two shots with the same angle error. *)
Definition equal_targets : list Piecewise.shot :=
  [Piecewise.mk_shot 10 1 1 1; Piecewise.mk_shot 40 1 1 1]%float.

(** A row whose power is NaN, whose target is infinite and whose cut angle
    is the boolean [true]; a row whose cut angle is a text; a shot of the flat
    variants whose power is NaN and whose target is infinite. *)
Definition nan_row : gmap string json :=
  {[ "cutAngle"%string := JBool true;
     "power"%string := JFloat nan;
     "angleError"%string := JFloat infinity ]}.

Definition text_row : gmap string json :=
  {[ "cutAngle"%string := JStr "fast";
     "power"%string := JFloat 3;
     "angleError"%string := JFloat 2 ]}.


(** A stand-in for scikit-learn to run the examples with: a "model" is its
    list of named coefficients, fitting returns the constant model that
    predicts the mean target, the train/test split keeps every row on both
    sides, and the metrics are computed as their names say. *)
Definition mean_model (y : list float) : list (string * float) :=
  [("1"%string, Numpy.np_mean y)].

Definition sample_sklearn : Split.sklearn (list (string * float)) :=
  Split.mk_sklearn _
    (fun _ _ _ y => mean_model y)
    (fun m _ => match m with (_, c) :: _ => c | [] => 0%float end)
    (fun m => m)
    (fun X y _ _ => (X, X, y, y))
    (fun yt yp =>
       Numpy.np_mean (zip_with (fun a b => ((a - b) * (a - b))%float) yt yp))
    (fun _ _ => 0%float)
    (fun yt yp => Numpy.np_mean (zip_with (fun a b => abs (a - b)) yt yp)).

(** Twelve training rows [(cutAngle, power)]: the targets jump where the cut
    angle passes 30. *)
Definition sample_X : list (float * float) :=
  [(5, 1); (8, 1); (12, 1); (15, 1); (20, 1); (25, 1);
   (35, 1); (40, 1); (45, 1); (50, 1); (55, 1); (65, 1)]%float.
Definition sample_y : list float :=
  [1; 1; 1; 1; 1; 1; 3; 3; 3; 3; 3; 3]%float.

(** Two hundred powers between [0] and [2^24 = 16777216]. *)
Definition wide_powers : list float :=
  [0; 16777216]%float ++ repeat 5%float 198.

(** Two hundred well-formed rows: cut angles from 0 to 99, each twice, one
    power value, one target value. *)
Definition spread_rows : list (gmap string json) :=
  map (fun i => {[ "cutAngle"%string := JFloat (float_of_nat (i mod 100));
                   "power"%string := JFloat 5;
                   "angleError"%string := JFloat 1 ]})
      (seq 0 200).

(** A well-formed row, and two readings of the clock one second apart. *)
Definition sample_row : gmap string json :=
  {[ "cutAngle"%string := JFloat 20;
     "power"%string := JFloat 5;
     "angleError"%string := JFloat 1 ]}.

Definition clock_1 : string := "2026-01-01 00:00:00Z".
Definition clock_2 : string := "2026-01-01 00:00:01Z".

(** One bracket, the powers from [0] to [10], split at 30 degrees, with two
    cubic models whose coefficients have both signs. *)
Definition cubic_left : list (string * float) :=
  [("1", 0.5); ("x0", 0.02); ("x1", -0.3); ("x0^2", 0.001);
   ("x0 x1", 0.002); ("x1^2", 0.01); ("x0^3", -0.00001);
   ("x0^2 x1", 0.0001); ("x0 x1^2", -0.0002); ("x1^3", 0.0003)]%float%string.

Definition cubic_right : list (string * float) :=
  [("1", 1.5); ("x0", -0.04); ("x1", 0.1); ("x0^2", -0.001);
   ("x0 x1", 0.003); ("x1^2", -0.02); ("x0^3", 0.00002);
   ("x0^2 x1", -0.0001); ("x0 x1^2", 0.0002); ("x1^3", -0.0001)]%float%string.

Definition cubic_result : Split.result (Model := list (string * float)) :=
  Split.mk_result 0 0 10 30 0.5 0.9 0.4 0.6 cubic_left cubic_right 200.

(** ** Vocabulary for comparing two runs *)

(** Two results that are the same failure, or two texts that agree
    everywhere but in the time stamp. *)
Definition same_but_for (now1 now2 : string) (r1 r2 : pyres string) : Prop :=
  match r1, r2 with
  | Ok t1, Ok t2 =>
      (exists pre post,
          t1 = (pre +:+ now1 +:+ post)%string /\
          t2 = (pre +:+ now2 +:+ post)%string) /\
      (t1 = t2 <-> now1 = now2)
  | Raise e1, Raise e2 => e1 = e2
  | _, _ => False
  end.

(** * Properties *)

(** ** Error-monad loops that cannot fail *)




Lemma index_ge {A : Type} (l : list A) (i : nat) :
  length l <= i -> index l i = Raise IndexError.
Proof. intros Hi. unfold index. by rewrite lookup_ge_None_2. Qed.

(** ** Binomial coefficients *)

Lemma binom_0_r n : binom n 0 = 1.
Proof. by destruct n. Qed.

Lemma binom_pascal n k : binom (S n) (S k) = binom n k + binom n (S k).
Proof. reflexivity. Qed.

Lemma binom_gt n k : n < k -> binom n k = 0.
Proof.
  revert k. induction n as [|n IH]; intros [|k] H; try lia; [done|].
  rewrite binom_pascal, !IH by lia. done.
Qed.

Lemma binom_diag n : binom n n = 1.
Proof.
  induction n as [|n IH]; [done|].
  rewrite binom_pascal, IH, binom_gt by lia. done.
Qed.

(** [binom n k] is the usual n! / (k! (n-k)!). *)
Lemma binom_fact n k :
  k <= n -> binom n k * (fact k * fact (n - k)) = fact n.
Proof.
  revert k. induction n as [|n IH]; intros k Hk.
  - replace k with 0 by lia. done.
  - destruct k as [|k]; [rewrite binom_0_r; simpl; lia|].
    destruct (decide (k = n)) as [->|Hne].
    + rewrite binom_diag. replace (S n - S n) with 0 by lia. simpl. lia.
    + rewrite binom_pascal.
      assert (H1 := IH k ltac:(lia)). assert (H2 := IH (S k) ltac:(lia)).
      replace (S n - S k) with (n - k) by lia.
      replace (n - k) with (S (n - S k)) in * by lia.
      change (fact (S n)) with (S n * fact n).
      change (fact (S k)) with (S k * fact k) in *.
      change (fact (S (n - S k))) with (S (n - S k) * fact (n - S k)) in *.
      nia.
Qed.

(** ** combinations_with_replacement *)









(** ** The canonical order *)










(** ** Term names are pairwise distinct *)





(** ** The loops of build_polynomial_features *)













(** ** The numpy variant *)









(** The docstring of build_angle_model.py: for degree 2 and inputs [a, b, c]
    the terms are [1, a, b, c, a^2, ab, ac, b^2, bc, c^2]. *)
Example poly_terms_3_2 :
  poly_terms 3 2
  = [[]; [0]; [1]; [2]; [0; 0]; [0; 1]; [0; 2]; [1; 1]; [1; 2]; [2; 2]].
Proof. reflexivity. Qed.

Example build_polynomial_features_example :
  Simple.build_polynomial_features [[2; 3; 5]; [1; 0.5; 4]]%float 2
  = Ok ([[1; 2; 3; 5; 4; 6; 10; 9; 15; 25];
         [1; 1; 0.5; 4; 1; 0.5; 4; 0.25; 2; 16]]%float,
        ["1"; "cutAngle"; "spinY"; "power"; "cutAngle*cutAngle";
         "cutAngle*spinY"; "cutAngle*power"; "spinY*spinY"; "spinY*power";
         "power*power"]%string).
Proof. vm_compute. reflexivity. Qed.



(** ** Loop invariants for [for_each] *)

Lemma for_each_prefix_inv {A S : Type} (P : list A -> S -> Prop)
    (body : A -> S -> pyres S) (l : list A) (s : S) :
  P [] s ->
  (forall pre x post s0,
      l = pre ++ x :: post -> P pre s0 ->
      exists s1, body x s0 = Ok s1 /\ P (pre ++ [x]) s1) ->
  exists s', for_each l body s = Ok s' /\ P l s'.
Proof.
  intros H0 Hstep.
  assert (Haux : forall l' pre s0,
             l = pre ++ l' -> P pre s0 ->
             exists s', for_each l' body s0 = Ok s' /\ P (pre ++ l') s').
  { induction l' as [|x l' IH]; intros pre s0 Hl Hp; simpl.
    - exists s0. by rewrite app_nil_r.
    - destruct (Hstep pre x l' s0 Hl Hp) as (s1 & Hb & Hp1).
      rewrite Hb. simpl.
      destruct (IH (pre ++ [x]) s1) as (s' & Hf & Hp'); [|done|].
      { by rewrite <- app_assoc. }
      exists s'. split; [done|]. by rewrite <- app_assoc in Hp'. }
  apply (Haux l [] s); done.
Qed.

Lemma for_each_inv {A S : Type} (P : S -> Prop)
    (body : A -> S -> pyres S) (l : list A) (s : S) :
  P s ->
  (forall x s0, x ∈ l -> P s0 -> exists s1, body x s0 = Ok s1 /\ P s1) ->
  exists s', for_each l body s = Ok s' /\ P s'.
Proof.
  intros H0 Hstep. apply (for_each_prefix_inv (fun _ => P)); [done|].
  intros pre x post s0 -> Hp. apply Hstep; [|done].
  apply elem_of_app. right. apply list_elem_of_here.
Qed.

Lemma elem_of_range lo hi i : i ∈ range lo hi <-> lo <= i < hi.
Proof. unfold range. rewrite elem_of_seq. lia. Qed.

(** ** Indexing *)

Lemma index_lookup {A : Type} (l : list A) (i : nat) (x : A) :
  l !! i = Some x -> index l i = Ok x.
Proof. intros H. unfold index. by rewrite H. Qed.

Lemma set_index_ok {A : Type} (l : list A) (i : nat) (v : A) :
  i < length l -> set_index l i v = Ok (<[i := v]> l).
Proof. intros H. unfold set_index. by rewrite decide_True. Qed.

Lemma augmented_row n M i :
  augmented n M -> i < n ->
  exists row, M !! i = Some row /\ length row = S n.
Proof.
  intros [Hlen Hrows] Hi.
  destruct (lookup_lt_is_Some_2 M i) as [row Hrow]; [lia|].
  exists row. split; [done|].
  by apply (proj1 (Forall_lookup _ _) Hrows i row).
Qed.

Lemma augmented_insert n M i row :
  augmented n M -> length row = S n -> augmented n (<[i := row]> M).
Proof.
  intros [Hlen Hrows] Hrow. split; [by rewrite length_insert|].
  by apply Forall_insert.
Qed.

Lemma get2_ok n M i j :
  augmented n M -> i < n -> j <= n ->
  exists row v, M !! i = Some row /\ row !! j = Some v /\
                Simple.get2 M i j = Ok v.
Proof.
  intros HM Hi Hj. destruct (augmented_row n M i HM Hi) as (row & Hrow & Hlen).
  destruct (lookup_lt_is_Some_2 row j) as [v Hv]; [lia|].
  exists row, v. split; [done|]. split; [done|].
  unfold Simple.get2. rewrite (index_lookup M i row Hrow). simpl.
  by apply index_lookup.
Qed.

Lemma get2_lookup M i j row v :
  M !! i = Some row -> row !! j = Some v -> Simple.get2 M i j = Ok v.
Proof.
  intros Hrow Hv. unfold Simple.get2. rewrite (index_lookup M i row Hrow).
  simpl. by apply index_lookup.
Qed.

Lemma set2_ok n M i j v :
  augmented n M -> i < n -> j <= n ->
  exists row, M !! i = Some row /\
              Simple.set2 M i j v = Ok (<[i := <[j := v]> row]> M) /\
              augmented n (<[i := <[j := v]> row]> M).
Proof.
  intros HM Hi Hj. destruct (augmented_row n M i HM Hi) as (row & Hrow & Hlen).
  exists row. split; [done|]. split.
  - unfold Simple.set2. rewrite (index_lookup M i row Hrow). simpl.
    rewrite set_index_ok by lia. simpl. apply set_index_ok.
    destruct HM as [-> _]. done.
  - apply augmented_insert; [done|]. by rewrite length_insert.
Qed.

(** ** The pivot test excludes a zero divisor *)

Lemma near_zero_nonzero (p : float) :
  Simple.near_zero p = false -> (p =? 0)%float = false.
Proof.
  unfold Simple.near_zero. rewrite FloatAxioms.ltb_spec, FloatAxioms.abs_spec, FloatAxioms.eqb_spec.
  destruct (Prim2SF p) as [s|s| |s m e].
  - vm_compute. intros H; discriminate H.
  - intros _. destruct s; vm_compute; reflexivity.
  - intros _. vm_compute. reflexivity.
  - intros _. destruct s; vm_compute; reflexivity.
Qed.

Lemma py_div_ok (a p : float) :
  Simple.near_zero p = false -> py_div a p = Ok (a / p)%float.
Proof. intros H. unfold py_div. by rewrite near_zero_nonzero. Qed.

(** ** Forward elimination *)

Lemma find_pivot_ok n M col :
  augmented n M -> col < n ->
  exists max_row, Simple.find_pivot M n col = Ok max_row /\ col <= max_row < n.
Proof.
  intros HM Hcol. unfold Simple.find_pivot.
  apply (for_each_inv (fun m => col <= m < n)); [lia|].
  intros row m Hrow Hm. apply elem_of_range in Hrow.
  destruct (get2_ok n M row col HM) as (r1 & a & _ & _ & ->); [lia|lia|].
  destruct (get2_ok n M m col HM) as (r2 & b & _ & _ & ->); [lia|lia|].
  simpl. eexists. split; [done|]. destruct (abs b <? abs a)%float; lia.
Qed.

Lemma swap_rows_ok n M col max_row :
  augmented n M -> col < n -> max_row < n ->
  exists M', Simple.swap_rows M col max_row = Ok M' /\ augmented n M'.
Proof.
  intros HM Hcol Hmax. unfold Simple.swap_rows.
  destruct (augmented_row n M max_row HM Hmax) as (r1 & Hr1 & Hl1).
  destruct (augmented_row n M col HM Hcol) as (r2 & Hr2 & Hl2).
  rewrite (index_lookup _ _ _ Hr1), (index_lookup _ _ _ Hr2). simpl.
  assert (Hlen : length M = n) by apply HM.
  rewrite set_index_ok by lia. simpl.
  rewrite set_index_ok by (rewrite length_insert; lia).
  eexists. split; [done|]. by repeat apply augmented_insert.
Qed.

(** The inner loop of the elimination rewrites row [row] only. *)
Lemma eliminate_entries_ok n M col row factor prow :
  augmented n M -> col < n -> row < n -> row <> col ->
  M !! col = Some prow ->
  exists M',
    for_each (range col (n + 1))
      (fun j aug =>
         let* v := Simple.get2 aug row j in
         let* c := Simple.get2 aug col j in
         Simple.set2 aug row j (v - factor * c)%float) M = Ok M' /\
    augmented n M' /\ M' !! col = Some prow.
Proof.
  intros HM Hcol Hrow Hne Hprow.
  apply (for_each_inv (fun aug => augmented n aug /\ aug !! col = Some prow));
    [done|].
  intros j aug Hj [Haug Hp]. apply elem_of_range in Hj.
  destruct (get2_ok n aug row j Haug) as (r1 & v & _ & _ & ->); [lia|lia|].
  destruct (get2_ok n aug col j Haug) as (r2 & c & _ & _ & ->); [lia|lia|].
  simpl.
  destruct (set2_ok n aug row j (v - factor * c)%float Haug)
    as (r & Hr & -> & Haug'); [lia|lia|].
  eexists. split; [done|]. split; [done|].
  by rewrite list_lookup_insert_ne.
Qed.

Lemma eliminate_row_ok n M divisors col row prow p :
  augmented n M -> col < n -> row < n -> row <> col ->
  M !! col = Some prow -> prow !! col = Some p ->
  Simple.near_zero p = false ->
  exists M1,
    Simple.eliminate_row n col row (M, divisors) = Ok (M1, divisors ++ [p]) /\
    augmented n M1 /\ M1 !! col = Some prow.
Proof.
  intros HM Hcol Hrow Hne Hprow Hp Hnz. unfold Simple.eliminate_row.
  destruct (get2_ok n M row col HM) as (r1 & a & _ & _ & ->); [lia|lia|].
  rewrite (get2_lookup M col col prow p Hprow Hp). simpl.
  rewrite py_div_ok by done. simpl.
  destruct (eliminate_entries_ok n M col row (a / p)%float prow)
    as (M1 & -> & HM1 & Hprow1); try done.
  simpl. by exists M1.
Qed.

(** The invariant of the loop over [col]: the matrix keeps its shape and
    every divisor used so far passed the pivot test. *)
Lemma forward_step_ok n M divisors col :
  augmented n M -> col < n ->
  Forall (fun d => Simple.near_zero d = false) divisors ->
  exists M1 divisors1,
    Simple.forward_step n col (M, divisors) = Ok (M1, divisors1) /\
    augmented n M1 /\
    Forall (fun d => Simple.near_zero d = false) divisors1.
Proof.
  intros HM Hcol Hdiv. unfold Simple.forward_step.
  destruct (find_pivot_ok n M col HM Hcol) as (max_row & -> & Hmax). simpl.
  destruct (swap_rows_ok n M col max_row HM Hcol) as (M1 & -> & HM1); [lia|].
  simpl.
  destruct (get2_ok n M1 col col HM1) as (prow & p & Hprow & Hp & ->);
    [lia|lia|].
  simpl. destruct (Simple.near_zero p) eqn:Hnz.
  - by exists M1, divisors.
  - destruct (for_each_inv
                (fun st : list (list float) * list float =>
                   augmented n st.1 /\ st.1 !! col = Some prow /\
                   Forall (fun d => Simple.near_zero d = false) st.2)
                (Simple.eliminate_row n col) (range (col + 1) n) (M1, divisors))
      as ([M2 divs2] & Hrun & HM2 & _ & Hdivs2); [done| |].
    + intros row [Ma divsa] Hrow (HMa & Hprowa & Hdivsa).
      apply elem_of_range in Hrow. simpl in HMa, Hprowa, Hdivsa.
      destruct (eliminate_row_ok n Ma divsa col row prow p)
        as (Mb & -> & HMb & Hprowb); try done; try lia.
      eexists. split; [done|]. simpl. split; [done|]. split; [done|].
      apply Forall_app. split; [done|]. by constructor.
    + by exists M2, divs2.
Qed.

Lemma forward_elimination_ok n M :
  augmented n M ->
  exists M1 divisors,
    for_each (range 0 n) (Simple.forward_step n) (M, []) = Ok (M1, divisors) /\
    augmented n M1 /\
    Forall (fun d => Simple.near_zero d = false) divisors.
Proof.
  intros HM.
  destruct (for_each_inv
              (fun st : list (list float) * list float =>
                 augmented n st.1 /\
                 Forall (fun d => Simple.near_zero d = false) st.2)
              (Simple.forward_step n) (range 0 n) (M, []))
    as ([M1 divs] & Hrun & HM1 & Hdivs); [by split| |by exists M1, divs].
  intros col [Ma divsa] Hcol [HMa Hdivsa]. apply elem_of_range in Hcol.
  destruct (forward_step_ok n Ma divsa col) as (Mb & divsb & -> & ? & ?);
    try done; try lia.
  by exists (Mb, divsb).
Qed.

(** ** Back substitution *)

Lemma back_inner_ok n M i x0 :
  augmented n M -> i < n -> length x0 = n ->
  exists x,
    for_each (range (i + 1) n)
      (fun j x =>
         let* xi := index x i in
         let* a := Simple.get2 M i j in
         let* xj := index x j in
         set_index x i (xi - a * xj)%float) x0 = Ok x /\
    length x = n /\ (forall j, j <> i -> x !! j = x0 !! j).
Proof.
  intros HM Hi Hlen.
  apply (for_each_inv
           (fun x => length x = n /\ (forall j, j <> i -> x !! j = x0 !! j)));
    [done|].
  intros j x Hj [Hx Hsame]. apply elem_of_range in Hj.
  destruct (lookup_lt_is_Some_2 x i) as [xi Hxi]; [lia|].
  destruct (lookup_lt_is_Some_2 x j) as [xj Hxj]; [lia|].
  rewrite (index_lookup _ _ _ Hxi). simpl.
  destruct (get2_ok n M i j HM) as (r & a & _ & _ & ->); [lia|lia|]. simpl.
  rewrite (index_lookup _ _ _ Hxj). simpl.
  rewrite set_index_ok by lia. eexists. split; [done|].
  split; [by rewrite length_insert|].
  intros j' Hj'. rewrite list_lookup_insert_ne by done. by apply Hsame.
Qed.

Lemma back_step_ok n M x divisors i :
  augmented n M -> i < n -> length x = n ->
  Forall (fun d => Simple.near_zero d = false) divisors ->
  exists x1 divisors1,
    Simple.back_step M n i (x, divisors) = Ok (x1, divisors1) /\
    length x1 = n /\
    Forall (fun d => Simple.near_zero d = false) divisors1 /\
    (forall j, j <> i -> x1 !! j = x !! j) /\
    (forall p, Simple.get2 M i i = Ok p -> Simple.near_zero p = true ->
               x1 !! i = Some 0%float).
Proof.
  intros HM Hi Hlen Hdiv. unfold Simple.back_step.
  destruct (get2_ok n M i i HM) as (prow & p & Hprow & Hp & Hget); [lia|lia|].
  rewrite Hget. simpl. destruct (Simple.near_zero p) eqn:Hnz.
  - rewrite set_index_ok by lia. simpl. eexists _, _. split; [done|].
    split; [by rewrite length_insert|]. split; [done|]. split.
    + intros j Hj. by rewrite list_lookup_insert_ne.
    + intros _ _ _. apply list_lookup_insert_eq. lia.
  - destruct (get2_ok n M i n HM) as (r & v & _ & _ & ->); [lia|lia|]. simpl.
    rewrite set_index_ok by lia. simpl.
    destruct (back_inner_ok n M i (<[i := v]> x) HM Hi)
      as (x1 & -> & Hlen1 & Hsame1); [by rewrite length_insert|].
    simpl.
    destruct (lookup_lt_is_Some_2 x1 i) as [xi Hxi]; [lia|].
    rewrite (index_lookup _ _ _ Hxi). simpl.
    rewrite py_div_ok by done. simpl.
    rewrite set_index_ok by lia. simpl. eexists _, _. split; [done|].
    split; [by rewrite length_insert|]. split.
    { apply Forall_app. split; [done|]. by constructor. }
    split.
    + intros j Hj. rewrite list_lookup_insert_ne by done.
      rewrite Hsame1 by done. by rewrite list_lookup_insert_ne.
    + intros p' Hp' Hnz'. congruence.
Qed.

Lemma back_substitution_ok n M divisors :
  augmented n M ->
  Forall (fun d => Simple.near_zero d = false) divisors ->
  exists x divisors1,
    for_each (rev (range 0 n)) (Simple.back_step M n)
             (repeat 0%float n, divisors) = Ok (x, divisors1) /\
    length x = n /\
    Forall (fun d => Simple.near_zero d = false) divisors1 /\
    (forall i p, i < n -> Simple.get2 M i i = Ok p ->
                 Simple.near_zero p = true -> x !! i = Some 0%float).
Proof.
  intros HM Hdiv.
  assert (Hnd : NoDup (rev (range 0 n))).
  { apply NoDup_ListNoDup, List.NoDup_rev, NoDup_ListNoDup. apply NoDup_seq. }
  destruct (for_each_prefix_inv
              (fun (pre : list nat) (st : list float * list float) =>
                 length st.1 = n /\
                 Forall (fun d => Simple.near_zero d = false) st.2 /\
                 (forall i p, i ∈ pre -> Simple.get2 M i i = Ok p ->
                              Simple.near_zero p = true ->
                              st.1 !! i = Some 0%float))
              (Simple.back_step M n) (rev (range 0 n))
              (repeat 0%float n, divisors))
    as ([x divs1] & Hrun & Hlen & Hdivs1 & Hzero).
  - simpl. split; [apply repeat_length|]. split; [done|].
    intros i p Hin. by apply elem_of_nil in Hin.
  - intros pre i post [xa divsa] Hsplit (Hlena & Hdivsa & Hzeroa).
    simpl in Hlena, Hdivsa, Hzeroa.
    assert (Hi : i < n).
    { assert (Hin : i ∈ rev (range 0 n)).
      { rewrite Hsplit. apply elem_of_app. right. apply list_elem_of_here. }
      rewrite list_elem_of_In, <- in_rev, <- list_elem_of_In, elem_of_range in Hin.
      lia. }
    assert (Hfresh : i ∉ pre).
    { rewrite Hsplit in Hnd. apply NoDup_app in Hnd as (_ & Hnd & _).
      intros Hin. apply (Hnd i Hin). apply list_elem_of_here. }
    destruct (back_step_ok n M xa divsa i HM Hi Hlena Hdivsa)
      as (xb & divsb & -> & Hlenb & Hdivsb & Hsame & Hself).
    exists (xb, divsb). split; [done|]. simpl. split; [done|]. split; [done|].
    intros j p Hj Hget Hnz. apply elem_of_app in Hj as [Hj|Hj].
    + rewrite Hsame by (intros ->; done). by apply (Hzeroa j p).
    + apply list_elem_of_singleton in Hj as ->. by apply (Hself p).
  - exists x, divs1. split; [done|]. split; [done|]. split; [done|].
    intros i p Hi. apply Hzero.
    rewrite list_elem_of_In, <- in_rev, <- list_elem_of_In, elem_of_range. lia.
Qed.

Lemma augment_ok (A : list (list float)) (b : list float) n :
  length A = n -> Forall (fun row => length row = n) A -> length b = n ->
  exists aug,
    comprehension
      (fun '(i, row) => let* bi := index b i in Ok (row ++ [bi]))
      (enumerate A) = Ok aug /\
    augmented n aug.
Proof.
  intros HA Hrows Hb. unfold enumerate, augmented.
  assert (Hgen : forall (l : list (nat * list float)),
             Forall (fun ir => ir.1 < n /\ length ir.2 = n) l ->
             exists aug,
               comprehension
                 (fun '(i, row) => let* bi := index b i in Ok (row ++ [bi])) l
               = Ok aug /\
               length aug = length l /\
               Forall (fun row => length row = S n) aug).
  { induction l as [|[i row] l IH]; intros Hl; simpl.
    - exists []. by repeat split.
    - inversion Hl as [|? ? [Hi Hrow] Hl']; subst. simpl in Hi, Hrow.
      destruct (lookup_lt_is_Some_2 b i) as [bi Hbi]; [lia|].
      rewrite (index_lookup _ _ _ Hbi). simpl.
      destruct (IH Hl') as (aug & -> & Hlen & Hall). simpl.
      eexists. split; [done|]. split; [simpl; lia|].
      constructor; [|done]. rewrite length_app. simpl. lia. }
  destruct (Hgen (zip (seq 0 (length A)) A)) as (aug & Hrun & Hlen & Hall).
  - rewrite Forall_forall. intros [i row] Hin. simpl. split.
    + apply elem_of_zip_l in Hin. apply elem_of_seq in Hin. lia.
    + apply elem_of_zip_r in Hin. rewrite Forall_forall in Hrows. by apply Hrows.
  - exists aug. split; [done|]. split; [|done].
    rewrite Hlen, length_zip, length_seq. lia.
Qed.

(** A rank-deficient system: the second pivot is zero after elimination, its
    coefficient is set to [0.0], and only the pivot [2.0] is ever divided
    by. *)
Example solve_rank_deficient :
  Simple.solve_traced [[1; 2]; [2; 4]]%float [3; 6]%float
  = Ok ([3; 0]%float, [[2; 4; 6]; [0; 0; 0]]%float, [2; 2]%float).
Proof. vm_compute. reflexivity. Qed.

(** C5.  On every square system ([n] rows of [n] entries, [n] right-hand
    sides) [solve_linear_system] returns a solution vector of length [n]
    without raising; every divisor it used failed the test
    [abs(d) < 1e-12]; and wherever the pivot left on the diagonal passes that
    test, the corresponding coefficient is [0.0]. *)
Theorem solve_linear_system_total
    (A : list (list float)) (b : list float) (n : nat) :
  length A = n ->
  Forall (fun row => length row = n) A ->
  length b = n ->
  exists x aug divisors,
    Simple.solve_traced A b = Ok (x, aug, divisors) /\
    Simple.solve_linear_system A b = Ok x /\
    length x = n /\
    Forall (fun d => Simple.near_zero d = false) divisors /\
    (forall i p, i < n -> Simple.get2 aug i i = Ok p ->
                 Simple.near_zero p = true -> x !! i = Some 0%float).
Proof.
  intros HA Hrows Hb.
  destruct (augment_ok A b n HA Hrows Hb) as (aug0 & Haug0 & Hshape0).
  destruct (forward_elimination_ok n aug0 Hshape0)
    as (aug & divs1 & Hfwd & Hshape & Hdivs1).
  destruct (back_substitution_ok n aug divs1 Hshape Hdivs1)
    as (x & divs2 & Hback & Hlen & Hdivs2 & Hzero).
  assert (Hrun : Simple.solve_traced A b = Ok (x, aug, divs2)).
  { unfold Simple.solve_traced. rewrite Haug0. cbn [bind].
    rewrite HA, Hfwd. cbn [bind]. rewrite Hback. done. }
  exists x, aug, divs2. split; [done|]. split.
  { unfold Simple.solve_linear_system. by rewrite Hrun. }
  done.
Qed.

Lemma solve_linear_system_total_witness :
  exists x aug divisors,
    Simple.solve_traced [[1; 2]; [2; 4]]%float [3; 6]%float
    = Ok (x, aug, divisors) /\
    Simple.solve_linear_system [[1; 2]; [2; 4]]%float [3; 6]%float = Ok x /\
    length x = 2 /\
    Forall (fun d => Simple.near_zero d = false) divisors /\
    (forall i p, i < 2 -> Simple.get2 aug i i = Ok p ->
                 Simple.near_zero p = true -> x !! i = Some 0%float).
Proof.
  apply (solve_linear_system_total [[1; 2]; [2; 4]]%float [3; 6]%float 2).
  - reflexivity.
  - repeat constructor.
  - reflexivity.
Defined.

(** ** R-squared: the guard of the flat variants, and its absence *)

Lemma positive_nonzero (t : float) :
  (0 <? t)%float = true -> (t =? 0)%float = false.
Proof.
  rewrite FloatAxioms.ltb_spec, FloatAxioms.eqb_spec.
  destruct (Prim2SF t) as [s|s| |s m e].
  - vm_compute. intros H; discriminate H.
  - intros _. destruct s; vm_compute; reflexivity.
  - intros _. vm_compute. reflexivity.
  - intros _. destruct s; vm_compute; reflexivity.
Qed.

Lemma zero_not_positive (t : float) :
  (t =? 0)%float = true -> (0 <? t)%float = false.
Proof.
  intros H. destruct (0 <? t)%float eqn:Hpos; [|done].
  apply positive_nonzero in Hpos. congruence.
Qed.

(** The dependency-free variant never divides by a zero [ss_tot]: the
    division is reached only when [ss_tot > 0]. *)
Lemma simple_r_squared_of_guarded (ss_res ss_tot : float) :
  Simple.r_squared_of ss_res ss_tot
  = Ok (if (0 <? ss_tot)%float then (1 - ss_res / ss_tot)%float else 0%float).
Proof.
  unfold Simple.r_squared_of. destruct (0 <? ss_tot)%float eqn:Hpos; [|done].
  unfold py_div. by rewrite positive_nonzero.
Qed.

(** Dividing by a zero and subtracting the quotient from one never gives a
    finite number. *)
Lemma one_minus_quotient_by_zero (a t : float) :
  (t =? 0)%float = true -> is_finite (1 - a / t)%float = false.
Proof.
  unfold is_finite, is_nan, is_infinity.
  rewrite !FloatAxioms.eqb_spec, FloatAxioms.abs_spec, FloatAxioms.sub_spec,
    FloatAxioms.div_spec.
  destruct (Prim2SF t) as [st|st| |st mt et].
  - intros _.
    destruct (Prim2SF a) as [sa|sa| |sa ma ea];
      destruct st; try destruct sa; vm_compute; reflexivity.
  - intros H. destruct st; vm_compute in H; discriminate H.
  - intros H. vm_compute in H. discriminate H.
  - intros H. destruct st; vm_compute in H; discriminate H.
Qed.

Lemma not_finite_nonzero (x : float) : is_finite x = false -> x <> 0%float.
Proof. intros H ->. vm_compute in H. discriminate H. Qed.

(** Both flat variants define R-squared as [0] when [ss_tot] is zero. *)
Lemma flat_r_squared_zero (ss_res ss_tot : float) :
  (ss_tot =? 0)%float = true ->
  Numpy.r_squared_of ss_res ss_tot = 0%float /\
  Simple.r_squared_of ss_res ss_tot = Ok 0%float.
Proof.
  intros Hz. split.
  - unfold Numpy.r_squared_of. by rewrite zero_not_positive.
  - rewrite simple_r_squared_of_guarded. by rewrite zero_not_positive.
Qed.

(** C4 (the code departs from it).  Whenever [ss_tot] is zero, as when all
    targets are identical, the piecewise script divides [ss_res] by that
    zero: its [r2] is a NaN or an infinity, never the [0] that the guarded
    flat variants return on the same two sums. *)
Theorem piecewise_r2_unguarded
    (np_sum : list float -> float) (np_power : float -> Z -> float)
    (coef_low : float * float * float * float)
    (coef_high : float * float * float * float * float)
    (data : list Piecewise.shot) :
  (Piecewise.ss_tot np_sum np_power data =? 0)%float = true ->
  is_finite (Piecewise.r2 np_sum np_power coef_low coef_high data) = false /\
  Piecewise.r2 np_sum np_power coef_low coef_high data <> 0%float /\
  Numpy.r_squared_of
    (Piecewise.ss_res np_sum np_power coef_low coef_high data)
    (Piecewise.ss_tot np_sum np_power data) = 0%float /\
  Simple.r_squared_of
    (Piecewise.ss_res np_sum np_power coef_low coef_high data)
    (Piecewise.ss_tot np_sum np_power data) = Ok 0%float.
Proof.
  intros Hz.
  assert (Hnf : is_finite (Piecewise.r2 np_sum np_power coef_low coef_high
                                        data) = false)
    by (by apply one_minus_quotient_by_zero).
  split; [done|]. split; [by apply not_finite_nonzero|].
  by apply flat_r_squared_zero.
Qed.

(** Two shots with the same angle error, one on each side of the break: the
    sums are exact, [ss_tot] is [0], and [r2] is a NaN when the residuals
    vanish and an infinity when they do not. *)
Example piecewise_r2_equal_targets :
  Piecewise.ss_tot sum_left power_by_products equal_targets = 0%float /\
  Piecewise.r2 sum_left power_by_products
    (1, 0, 0, 0)%float (1, 0, 0, 0, 0)%float equal_targets = nan /\
  Piecewise.r2 sum_left power_by_products
    (1, 0, 0, 0)%float (0, 0, 0, 0, 0)%float equal_targets = neg_infinity.
Proof. repeat split; vm_compute; reflexivity. Qed.

Lemma piecewise_r2_unguarded_witness :
  (Piecewise.ss_tot sum_left power_by_products equal_targets =? 0)%float
  = true /\
  is_finite (Piecewise.r2 sum_left power_by_products
               (1, 0, 0, 0)%float (0, 0, 0, 0, 0)%float equal_targets)
  = false /\
  Piecewise.r2 sum_left power_by_products
    (1, 0, 0, 0)%float (0, 0, 0, 0, 0)%float equal_targets <> 0%float /\
  Numpy.r_squared_of
    (Piecewise.ss_res sum_left power_by_products
       (1, 0, 0, 0)%float (0, 0, 0, 0, 0)%float equal_targets)
    (Piecewise.ss_tot sum_left power_by_products equal_targets) = 0%float /\
  Simple.r_squared_of
    (Piecewise.ss_res sum_left power_by_products
       (1, 0, 0, 0)%float (0, 0, 0, 0, 0)%float equal_targets)
    (Piecewise.ss_tot sum_left power_by_products equal_targets) = Ok 0%float.
Proof.
  assert (Hz : (Piecewise.ss_tot sum_left power_by_products equal_targets
                =? 0)%float = true)
    by (vm_compute; reflexivity).
  split; [exact Hz|].
  exact (piecewise_r2_unguarded sum_left power_by_products
           (1, 0, 0, 0)%float (0, 0, 0, 0, 0)%float equal_targets Hz).
Defined.

(** ** The flat emitter when every coefficient is negligible *)

Lemma terms_code_negligible (fmt : py_format)
    (coeffs : list float) (term_names : list string) :
  Forall (fun c => Simple.negligible c = true) coeffs ->
  Simple.terms_code fmt coeffs term_names = [].
Proof.
  unfold Simple.terms_code. intros Hall.
  assert (Hacc : forall names acc,
             fold_left
               (fun acc '(coeff, name) =>
                  if Simple.negligible coeff then acc
                  else acc ++ [Simple.term_expr fmt coeff name])
               (zip coeffs names) acc = acc).
  { induction Hall as [|c coeffs Hc Hall IH]; intros [|name names] acc;
      simpl; try done.
    rewrite Hc. apply IH. }
  apply Hacc.
Qed.

(** C10.  When every fitted coefficient has magnitude below [1e-10], the
    flat emitters collect no term at all, and the text they return is the
    header, a predictor whose body is the statement [return ;] with an empty
    expression, and the footer. *)
Theorem generate_javascript_all_negligible (fmt : py_format)
    (coeffs : list float) (term_names : list string)
    (degree : Z) (r_squared rmse : float) (n_samples : nat) :
  Forall (fun c => Simple.negligible c = true) coeffs ->
  Simple.terms_code fmt coeffs term_names = [] /\
  Simple.generate_javascript fmt coeffs term_names degree r_squared rmse n_samples
  = (Simple.js_header fmt degree r_squared rmse n_samples
     +:+ "    return ;" +:+ nl +:+ "}" +:+ nl
     +:+ Simple.js_footer fmt coeffs term_names degree r_squared rmse n_samples)
  /\
  Numpy.generate_javascript fmt coeffs term_names degree r_squared rmse n_samples
  = Simple.generate_javascript fmt coeffs term_names degree r_squared rmse
                               n_samples.
Proof.
  intros Hall. split; [by apply terms_code_negligible|]. split; [|done].
  unfold Simple.generate_javascript. by rewrite terms_code_negligible.
Qed.

Lemma generate_javascript_all_negligible_witness :
  Forall (fun c => Simple.negligible c = true) negligible_coeffs /\
  Simple.terms_code sample_format negligible_coeffs
    ["1"; "cutAngle"; "spinY"]%string = [] /\
  Simple.generate_javascript sample_format negligible_coeffs
    ["1"; "cutAngle"; "spinY"]%string 1 0 0 12
  = (Simple.js_header sample_format 1 0 0 12
     +:+ "    return ;" +:+ nl +:+ "}" +:+ nl
     +:+ Simple.js_footer sample_format negligible_coeffs
           ["1"; "cutAngle"; "spinY"]%string 1 0 0 12)
  /\
  Numpy.generate_javascript sample_format negligible_coeffs
    ["1"; "cutAngle"; "spinY"]%string 1 0 0 12
  = Simple.generate_javascript sample_format negligible_coeffs
      ["1"; "cutAngle"; "spinY"]%string 1 0 0 12.
Proof.
  assert (H : Forall (fun c => Simple.negligible c = true) negligible_coeffs)
    by (repeat constructor).
  split; [exact H|].
  exact (generate_javascript_all_negligible sample_format negligible_coeffs
           ["1"; "cutAngle"; "spinY"]%string 1 0%float 0%float 12 H).
Defined.

(** With one coefficient that is not negligible the body is a one-term
    return. *)
Example return_statement_one_term :
  Simple.return_statement
    (Simple.terms_code sample_format [0; 0.25; 1e-11]%float
                       ["1"; "cutAngle*spinY"; "power"]%string)
  = ("    return 0.2500000000 * cutAngle * spinY;" +:+ nl)%string.
Proof. vm_compute. reflexivity. Qed.

(** ** The order on doubles *)

Ltac cases_on_compare :=
  repeat match goal with
         | H : context [(?x ?= ?y)%Z] |- _ =>
             destruct (Z.compare_spec x y); simpl in H
         | |- context [(?x ?= ?y)%Z] =>
             destruct (Z.compare_spec x y); simpl
         | H : context [Pos.compare_cont Eq ?x ?y] |- _ =>
             change (Pos.compare_cont Eq x y) with (Pos.compare x y) in H;
             destruct (Pos.compare_spec x y); simpl in H
         | |- context [Pos.compare_cont Eq ?x ?y] =>
             change (Pos.compare_cont Eq x y) with (Pos.compare x y);
             destruct (Pos.compare_spec x y); simpl
         end.


Lemma SFltb_false_SFleb (a b : spec_float) :
  SFltb a b = false -> a <> S754_nan -> b <> S754_nan -> SFleb b a = true.
Proof.
  unfold SFltb, SFleb.
  destruct a as [sa|sa| |sa ma ea], b as [sb|sb| |sb mb eb];
    try destruct sa; try destruct sb; simpl;
    try discriminate; try reflexivity; try congruence; intros H1 _ _;
    cases_on_compare; try discriminate; try reflexivity; try lia.
Qed.



Lemma is_nan_spec (x : float) : is_nan x = true <-> Prim2SF x = S754_nan.
Proof.
  unfold is_nan. rewrite FloatAxioms.eqb_spec. unfold SFeqb.
  destruct (Prim2SF x) as [s|s| |s m e]; try destruct s; simpl;
    cases_on_compare; split; try done; try lia.
Qed.

Lemma not_nan_spec (x : float) : is_nan x = false -> Prim2SF x <> S754_nan.
Proof. intros H Hn. apply is_nan_spec in Hn. congruence. Qed.


Lemma ltb_false_leb (a b : float) :
  (a <? b)%float = false -> is_nan a = false -> is_nan b = false ->
  (b <=? a)%float = true.
Proof.
  rewrite FloatAxioms.ltb_spec, FloatAxioms.leb_spec. intros H Ha Hb.
  apply SFltb_false_SFleb; [done|by apply not_nan_spec..].
Qed.



Lemma leb_refl (a : float) : is_nan a = false -> (a <=? a)%float = true.
Proof.
  intros Ha. apply ltb_false_leb; [|done..].
  rewrite FloatAxioms.ltb_spec. unfold SFltb.
  destruct (Prim2SF a) as [s|s| |s m e]; try destruct s; simpl;
    cases_on_compare; try done; lia.
Qed.

(** ** The loaders *)








Lemma py_float_accepts parse_float (f : float) (b : bool) :
  Split.py_float parse_float (JFloat f) = Ok f /\
  Split.py_float parse_float (JBool b) = Ok (if b then 1 else 0)%float.
Proof. done. Qed.


(** The adaptive loader drops a row whose cut angle is a text and keeps the
    row that follows it. *)
Example load_samples_drops_text :
  Split.load_samples (fun _ => None) [text_row; nan_row; sample_row]
  = Ok ([(1, nan); (20, 5)]%float, [infinity; 1]%float, [nan; 5]%float).
Proof. vm_compute. reflexivity. Qed.


(** ** Automatic brackets *)

(** On a small range the nudge works: the minimum, the maximum and interior
    values fall in exactly one of the 55 brackets each. *)
Example make_brackets_auto_small_range :
  exists bs,
    Split.make_brackets_auto [0; 100; 50; 12.5]%float Split.AUTO_BRACKETS_N
    = Ok bs /\
    length bs = 55 /\
    map (brackets_holding bs) [0; 100; 50; 12.5]%float = [1; 1; 1; 1].
Proof.
  eexists. split; [vm_compute; reflexivity|].
  split; vm_compute; reflexivity.
Qed.

(** C7 (the code departs from it).  From [2^24 = 16777216] on, adding [1e-9]
    to a double gives the same double back, so the nudge of the last upper
    bound is lost.  For every array of powers whose minimum is [0] and whose
    maximum is [16777216], the 55 brackets are produced, the minimum lies in
    exactly one of them and the maximum in none. *)
Theorem make_brackets_auto_loses_maximum (powers : list float) :
  Split.np_min powers = Ok 0%float ->
  Split.np_max powers = Ok 16777216%float ->
  (16777216 + 1e-9 =? 16777216)%float = true /\
  exists bs,
    Split.make_brackets_auto powers Split.AUTO_BRACKETS_N = Ok bs /\
    length bs = 55 /\
    brackets_holding bs 0 = 1 /\
    brackets_holding bs 16777216 = 0.
Proof.
  intros Hmin Hmax. split; [vm_compute; reflexivity|].
  unfold Split.make_brackets_auto. rewrite Hmin, Hmax. cbn [bind].
  eexists. split; [vm_compute; reflexivity|].
  repeat split; vm_compute; reflexivity.
Qed.

Lemma make_brackets_auto_loses_maximum_witness :
  Split.np_min wide_powers = Ok 0%float /\
  Split.np_max wide_powers = Ok 16777216%float /\
  (16777216 + 1e-9 =? 16777216)%float = true /\
  exists bs,
    Split.make_brackets_auto wide_powers Split.AUTO_BRACKETS_N = Ok bs /\
    length bs = 55 /\
    brackets_holding bs 0 = 1 /\
    brackets_holding bs 16777216 = 0.
Proof.
  assert (Hmin : Split.np_min wide_powers = Ok 0%float)
    by (vm_compute; reflexivity).
  assert (Hmax : Split.np_max wide_powers = Ok 16777216%float)
    by (vm_compute; reflexivity).
  split; [exact Hmin|]. split; [exact Hmax|].
  exact (make_brackets_auto_loses_maximum wide_powers Hmin Hmax).
Defined.

(** The branch for a single power value loses its only sample the same
    way. *)
Example make_brackets_auto_single_value :
  Split.make_brackets_auto (repeat 16777216%float 200) Split.AUTO_BRACKETS_N
  = Ok [(16777216, 16777216)]%float /\
  brackets_holding [(16777216, 16777216)]%float 16777216 = 0.
Proof. split; vm_compute; reflexivity. Qed.

(** ** The candidate thresholds *)




(** ** The search keeps the best candidate seen so far *)

Section SearchProof.

Context {Model : Type} (sk : Split.sklearn Model).
Context (X_train X_test : list (float * float)) (y_train y_test : list float).

Abbreviation score := (split_score sk X_train X_test y_train y_test).




End SearchProof.




(** On the sample rows the thresholds 26 to 35 all score [0.0]; the search
    keeps the first of them. *)
Example search_split_sample :
  Split.search_split sample_sklearn sample_X sample_X sample_y sample_y
  = Ok (Some (Split.mk_candidate 26 0 [("1"%string, 1%float)]
                                 [("1"%string, 3%float)])) /\
  map (split_score sample_sklearn sample_X sample_X sample_y sample_y)
      [20; 26; 35; 36; 41]%Z
  = [None; Some (Ok 0%float); Some (Ok 0%float);
     Some (Ok 0.53452248382484879%float); None].
Proof. vm_compute. done. Qed.


(** ** Texts that differ in one place *)

Lemma string_app_cons (x : ascii) (a b : string) :
  (String x a +:+ b = String x (a +:+ b))%string.
Proof. reflexivity. Qed.

Lemma string_app_nil (b : string) : (EmptyString +:+ b = b)%string.
Proof. reflexivity. Qed.

Lemma string_app_assoc (a b c : string) :
  ((a +:+ b) +:+ c = a +:+ (b +:+ c))%string.
Proof.
  induction a as [|x a IH]; [done|].
  rewrite !string_app_cons. f_equal. exact IH.
Qed.

Lemma list_ascii_of_string_app (a b : string) :
  list_ascii_of_string (a +:+ b)
  = list_ascii_of_string a ++ list_ascii_of_string b.
Proof.
  induction a as [|x a IH]; [done|].
  rewrite string_app_cons. simpl. f_equal. exact IH.
Qed.

Lemma string_app_inv_tail (a b s : string) :
  (a +:+ s = b +:+ s)%string -> a = b.
Proof.
  intros H. apply (f_equal list_ascii_of_string) in H.
  rewrite !list_ascii_of_string_app in H. apply app_inv_tail in H.
  apply (f_equal string_of_list_ascii) in H.
  by rewrite !string_of_list_ascii_of_string in H.
Qed.

Lemma string_middle_inj (pre post a b : string) :
  (pre +:+ a +:+ post = pre +:+ b +:+ post)%string <-> a = b.
Proof.
  split; [|by intros ->]. intros H.
  apply String.app_inj in H. by apply string_app_inv_tail in H.
Qed.

Lemma string_app_nil_r (a : string) : (a +:+ EmptyString = a)%string.
Proof.
  induction a as [|x a IH]; [done|]. rewrite string_app_cons. by f_equal.
Qed.

Lemma join_singleton sep x : join sep [x] = x.
Proof. done. Qed.

Lemma join_cons_cons sep x y l :
  join sep (x :: y :: l) = (x +:+ sep +:+ join sep (y :: l))%string.
Proof. done. Qed.

(** Joining lines around one distinguished line. *)
Lemma join_around (sep : string) (before after : list string) (x : string) :
  exists pre post,
    forall middle,
      join sep (before ++ [x +:+ middle] ++ after)
      = (pre +:+ middle +:+ post)%string.
Proof.
  induction before as [|h before (pre & post & IH)].
  - destruct after as [|y after].
    + exists x, EmptyString. intros middle.
      change (join sep [x +:+ middle] = x +:+ middle +:+ EmptyString).
      by rewrite join_singleton, string_app_nil_r.
    + exists x, (sep +:+ join sep (y :: after))%string. intros middle.
      change (join sep ((x +:+ middle) :: y :: after)
              = x +:+ middle +:+ sep +:+ join sep (y :: after)).
      by rewrite join_cons_cons, string_app_assoc.
  - exists (h +:+ sep +:+ pre)%string, post. intros middle.
    specialize (IH middle).
    destruct before as [|h' before].
    + change (join sep (h :: ([] ++ [x +:+ middle] ++ after))
              = (h +:+ sep +:+ pre) +:+ middle +:+ post).
      destruct after as [|y after].
      * change (join sep (h :: [x +:+ middle])
              = (h +:+ sep +:+ pre) +:+ middle +:+ post).
        rewrite join_cons_cons.
        change (join sep [x +:+ middle] = pre +:+ middle +:+ post) in IH.
        by rewrite IH, !string_app_assoc.
      * change (join sep (h :: (x +:+ middle) :: y :: after)
              = (h +:+ sep +:+ pre) +:+ middle +:+ post).
        rewrite join_cons_cons.
        change (join sep ((x +:+ middle) :: y :: after)
                = pre +:+ middle +:+ post) in IH.
        by rewrite IH, !string_app_assoc.
    + change (join sep (h :: h' :: (before ++ [x +:+ middle] ++ after))
              = (h +:+ sep +:+ pre) +:+ middle +:+ post).
      rewrite join_cons_cons.
      change (join sep (h' :: (before ++ [x +:+ middle] ++ after))
              = pre +:+ middle +:+ post) in IH.
      by rewrite IH, !string_app_assoc.
Qed.

Section Determinism.

Context {Model : Type} (sk : Split.sklearn Model) (fmt : py_format).

Lemma build_js_same_but_for results input_filename n_samples_total
    poly_degree clip_val m now1 now2 :
  same_but_for now1 now2
    (Split.build_js sk fmt results input_filename n_samples_total poly_degree
                    clip_val m now1)
    (Split.build_js sk fmt results input_filename n_samples_total poly_degree
                    clip_val m now2).
Proof.
  unfold Split.build_js, same_but_for.
  destruct (Split.lines_after sk fmt results n_samples_total poly_degree
              clip_val m) as [rest|e]; [|done].
  unfold bind, Split.generated_line.
  destruct (join_around nl
              (Split.header_before fmt input_filename poly_degree clip_val)
              rest " * Generated (UTC): ") as (pre & post & Hjoin).
  rewrite !Hjoin. split.
  - by exists pre, post.
  - apply string_middle_inj.
Qed.

Lemma main_same_but_for parse_float rows input_filename now1 now2 :
  same_but_for now1 now2
    (Split.main sk fmt parse_float rows input_filename now1)
    (Split.main sk fmt parse_float rows input_filename now2).
Proof.
  unfold Split.main.
  destruct (Split.load_samples parse_float rows) as [[[X_all y_all] p_all]|e];
    cbn [bind]; [|done].
  case_decide; [done|].
  change (match Split.POWER_BRACKETS with
          | Some bs => Ok bs
          | None => Split.make_brackets_auto p_all Split.AUTO_BRACKETS_N
          end) with (Split.make_brackets_auto p_all Split.AUTO_BRACKETS_N).
  destruct (Split.make_brackets_auto p_all Split.AUTO_BRACKETS_N)
    as [brackets|e]; cbn [bind]; [|done].
  destruct (for_each (enumerate brackets)
              (Split.bracket_step sk X_all y_all p_all) ([], [], []))
    as [[[results yt] yp]|e]; cbn [bind]; [|done].
  destruct (Split.overall_metrics sk results yt yp) as [overall|e];
    cbn [bind]; [|done].
  apply build_js_same_but_for.
Qed.

End Determinism.

(** C2 (as amended).  Two runs of the adaptive pipeline on the same rows,
    the same file name and the same configuration either fail with the same
    exception or write two texts that agree everywhere but in the time stamp
    of the header line [Generated (UTC)]: the texts are byte-identical exactly
    when both runs read the same time. *)
Theorem adaptive_pipeline_same_up_to_clock {Model : Type}
    (sk : Split.sklearn Model) (fmt : py_format)
    (parse_float : string -> option float) (rows : list (gmap string json))
    (input_filename now1 now2 : string) :
  same_but_for now1 now2
    (Split.main sk fmt parse_float rows input_filename now1)
    (Split.main sk fmt parse_float rows input_filename now2).
Proof. apply main_same_but_for. Qed.

(** C2 as stated fails: the same two hundred rows, run at two readings of
    the clock one second apart, give two different texts. *)
Lemma adaptive_pipeline_differs_by_clock :
  exists t1 t2,
    Split.main sample_sklearn sample_format (fun _ => None) spread_rows
               "shots.json" clock_1 = Ok t1 /\
    Split.main sample_sklearn sample_format (fun _ => None) spread_rows
               "shots.json" clock_2 = Ok t2 /\
    t1 <> t2.
Proof.
  pose proof (main_same_but_for sample_sklearn sample_format (fun _ => None)
                spread_rows "shots.json" clock_1 clock_2) as Hsame.
  destruct (Split.main sample_sklearn sample_format (fun _ => None)
              spread_rows "shots.json" clock_1) as [t1|e1] eqn:H1.
  - destruct (Split.main sample_sklearn sample_format (fun _ => None)
                spread_rows "shots.json" clock_2) as [t2|e2] eqn:H2;
      [|contradiction].
    exists t1, t2. split; [done|]. split; [done|].
    intros Heq. apply Hsame in Heq. discriminate Heq.
  - exfalso. vm_compute in H1. discriminate H1.
Qed.

(** ** The emitted dispatcher *)



Section EngineProof.

Context {Model : Type} (sk : Split.sklearn Model).
Context (math_pow : float -> Z -> float) (literal : float -> float).







Lemma predictAngleError_not_finite
    (results : list (Split.result (Model := Model)))
    (clip cutAngle spinY power : float) :
  is_finite cutAngle = false \/ is_finite spinY = false \/
  is_finite power = false ->
  Artifact.predictAngleError sk math_pow literal results clip cutAngle spinY
                             power = Some 0%float.
Proof.
  unfold Artifact.predictAngleError.
  intros [-> | [-> | ->]]; simpl; [done| |].
  - by rewrite orb_true_r.
  - by rewrite orb_true_r.
Qed.




End EngineProof.




(** A power above the bracket is answered by the bracket's left model,
    clamped; a power below it likewise. *)
Example dispatcher_out_of_range :
  Artifact.predictAngleError sample_sklearn power_by_products id
    [cubic_result] 15 20 0 50 = Some 15%float /\
  Artifact.predictAngleError sample_sklearn power_by_products id
    [cubic_result] 15 20 0 (-3) = Some 1.9258999999999993%float.
Proof. split; vm_compute; reflexivity. Qed.

(** ** The clamp of the emitted predictor *)

Lemma ltb_nan_l (x y : float) : is_nan x = true -> (x <? y)%float = false.
Proof.
  intros H. apply is_nan_spec in H.
  rewrite FloatAxioms.ltb_spec, H. reflexivity.
Qed.

Lemma ltb_nan_r (x y : float) : is_nan y = true -> (x <? y)%float = false.
Proof.
  intros H. apply is_nan_spec in H.
  rewrite FloatAxioms.ltb_spec, H. unfold SFltb, SFcompare.
  by destruct (Prim2SF x) as [[]|[]| |[] ? ?].
Qed.

Lemma leb_nan_l (x y : float) : is_nan x = true -> (x <=? y)%float = false.
Proof.
  intros H. apply is_nan_spec in H.
  rewrite FloatAxioms.leb_spec, H. reflexivity.
Qed.

Lemma leb_nan_r (x y : float) : is_nan y = true -> (x <=? y)%float = false.
Proof.
  intros H. apply is_nan_spec in H.
  rewrite FloatAxioms.leb_spec, H. unfold SFleb, SFcompare.
  by destruct (Prim2SF x) as [[]|[]| |[] ? ?].
Qed.

(** Neither test of the clamp holds of a NaN: it is returned as it is. *)
Lemma clamp_nan (clip y : float) :
  is_nan y = true -> Artifact.clamp clip y = y.
Proof.
  intros H. unfold Artifact.clamp.
  by rewrite (ltb_nan_r clip y H), (ltb_nan_l y (- clip) H).
Qed.

Section EvalLines.

Context (math_pow : float -> Z -> float) (literal : float -> float).
Context (cutAngle power : float).

Abbreviation line_value := (Artifact.eval_line math_pow literal cutAngle power).

Lemma eval_line_names (c : float) :
  line_value ("1"%string, c) = Some (literal c * 1)%float /\
  line_value ("x0"%string, c) = Some (literal c * cutAngle)%float /\
  line_value ("x1"%string, c) = Some (literal c * power)%float /\
  line_value ("x0^2"%string, c) = Some (literal c * math_pow cutAngle 2)%float /\
  line_value ("x0 x1"%string, c) = Some (literal c * (cutAngle * power))%float /\
  line_value ("x1^2"%string, c) = Some (literal c * math_pow power 2)%float /\
  line_value ("x0^3"%string, c) = Some (literal c * math_pow cutAngle 3)%float /\
  line_value ("x0^2 x1"%string, c)
  = Some (literal c * (math_pow cutAngle 2 * power))%float /\
  line_value ("x0 x1^2"%string, c)
  = Some (literal c * (cutAngle * math_pow power 2))%float /\
  line_value ("x1^3"%string, c) = Some (literal c * math_pow power 3)%float.
Proof.
  unfold Artifact.eval_line. simpl fst. simpl snd.
  repeat split;
    match goal with
    | |- context [Split.term_to_js ?s] =>
        let t := eval vm_compute in (Split.term_to_js s) in
        change (Split.term_to_js s) with t
    end; reflexivity.
Qed.

End EvalLines.

(** C9 (the code departs from it).  The arguments [(1e200, 0, 5)] are finite
    and pass the sanitization; the power lies in the bracket; in the cubic
    model the terms in [cutAngle^2] and [cutAngle^3] overflow to infinities of
    opposite signs, their sum is a NaN, neither test of the clamp holds of it
    and the predictor returns it: the output is not within [[-15, 15]].  This
    holds on every engine whose [Math.pow] gives [Infinity] for the two
    overflowing powers and [25] and [125] for the powers of [5], and which
    reads the ten coefficients back as they are. *)
Theorem predictor_output_escapes_clip
    (math_pow : float -> Z -> float) (literal : float -> float) :
  math_pow 1e200%float 2%Z = infinity ->
  math_pow 1e200%float 3%Z = infinity ->
  math_pow 5%float 2%Z = 25%float ->
  math_pow 5%float 3%Z = 125%float ->
  Forall (fun line => literal line.2 = line.2) cubic_right ->
  (is_finite 1e200 = true /\ is_finite 0 = true /\ is_finite 5 = true) /\
  Split.in_bracket (Split.pmin cubic_result) (Split.pmax cubic_result) 5
  = true /\
  Artifact.predictAngleError sample_sklearn math_pow literal [cubic_result]
                             15 1e200 0 5 = Some nan /\
  (nan <=? 15)%float = false /\ (-15 <=? nan)%float = false.
Proof.
  intros H2 H3 H52 H53 Hlit.
  split; [repeat split; vm_compute; reflexivity|].
  split; [vm_compute; reflexivity|].
  split; [|split; vm_compute; reflexivity].
  unfold Artifact.predictAngleError.
  replace (negb (is_finite 1e200) || negb (is_finite 0)
           || negb (is_finite 5)) with false by (vm_compute; reflexivity).
  replace (List.find
             (fun r => Split.in_bracket (Split.pmin r) (Split.pmax r) 5)
             [cubic_result]) with (Some cubic_result)
    by (vm_compute; reflexivity).
  unfold Artifact.route.
  replace (1e200 <? float_of_Z (Split.split cubic_result))%float with false
    by (vm_compute; reflexivity).
  unfold Artifact.bracket_function.
  change (Split.poly_ridge_coeffs sample_sklearn (Split.mR cubic_result))
    with cubic_right.
  unfold cubic_right in *.
  repeat match goal with
         | H : Forall _ (_ :: _) |- _ =>
             let Hh := fresh "Hh" in
             apply Forall_cons in H as [Hh H]; simpl in Hh
         end.
  cbn [fold_left].
  destruct (eval_line_names math_pow literal 1e200 5 1.5)
    as (-> & _).
  destruct (eval_line_names math_pow literal 1e200 5 (-0.04))
    as (_ & -> & _).
  destruct (eval_line_names math_pow literal 1e200 5 0.1)
    as (_ & _ & -> & _).
  destruct (eval_line_names math_pow literal 1e200 5 (-0.001))
    as (_ & _ & _ & -> & _).
  destruct (eval_line_names math_pow literal 1e200 5 0.003)
    as (_ & _ & _ & _ & -> & _).
  destruct (eval_line_names math_pow literal 1e200 5 (-0.02))
    as (_ & _ & _ & _ & _ & -> & _).
  destruct (eval_line_names math_pow literal 1e200 5 0.00002)
    as (_ & _ & _ & _ & _ & _ & -> & _).
  destruct (eval_line_names math_pow literal 1e200 5 (-0.0001))
    as (_ & _ & _ & _ & _ & _ & _ & -> & _).
  destruct (eval_line_names math_pow literal 1e200 5 0.0002)
    as (_ & _ & _ & _ & _ & _ & _ & _ & -> & _).
  destruct (eval_line_names math_pow literal 1e200 5 (-0.0001))
    as (_ & _ & _ & _ & _ & _ & _ & _ & _ & ->).
  rewrite H2, H3, H52, H53.
  repeat match goal with Hh : literal _ = _ |- _ => rewrite Hh; clear Hh end.
  vm_compute. reflexivity.
Qed.

Lemma predictor_output_escapes_clip_witness :
  power_by_products 1e200%float 2%Z = infinity /\
  power_by_products 1e200%float 3%Z = infinity /\
  power_by_products 5%float 2%Z = 25%float /\
  power_by_products 5%float 3%Z = 125%float /\
  Forall (fun line : string * float => id line.2 = line.2) cubic_right /\
  (is_finite 1e200 = true /\ is_finite 0 = true /\ is_finite 5 = true) /\
  Split.in_bracket (Split.pmin cubic_result) (Split.pmax cubic_result) 5
  = true /\
  Artifact.predictAngleError sample_sklearn power_by_products id
    [cubic_result] 15 1e200 0 5 = Some nan /\
  (nan <=? 15)%float = false /\ (-15 <=? nan)%float = false.
Proof.
  assert (H2 : power_by_products 1e200%float 2%Z = infinity)
    by (vm_compute; reflexivity).
  assert (H3 : power_by_products 1e200%float 3%Z = infinity)
    by (vm_compute; reflexivity).
  assert (H52 : power_by_products 5%float 2%Z = 25%float)
    by (vm_compute; reflexivity).
  assert (H53 : power_by_products 5%float 3%Z = 125%float)
    by (vm_compute; reflexivity).
  assert (Hlit : Forall (fun line : string * float => id line.2 = line.2)
                        cubic_right)
    by (repeat constructor).
  split; [exact H2|]. split; [exact H3|]. split; [exact H52|].
  split; [exact H53|]. split; [exact Hlit|].
  exact (predictor_output_escapes_clip power_by_products id H2 H3 H52 H53 Hlit).
Defined.

(** ** What the clamp does guarantee *)

Lemma is_nan_false_spec (x : float) :
  is_nan x = false <-> Prim2SF x <> S754_nan.
Proof.
  split; [apply not_nan_spec|]. intros H.
  destruct (is_nan x) eqn:Hn; [|done]. by apply is_nan_spec in Hn.
Qed.

Lemma leb_not_nan (a b : float) :
  (a <=? b)%float = true -> is_nan a = false /\ is_nan b = false.
Proof.
  intros H. split.
  - destruct (is_nan a) eqn:Hn; [|done].
    by rewrite (leb_nan_l a b Hn) in H.
  - destruct (is_nan b) eqn:Hn; [|done].
    by rewrite (leb_nan_r a b Hn) in H.
Qed.

Lemma opp_not_nan (x : float) : is_nan x = false -> is_nan (- x) = false.
Proof.
  rewrite !is_nan_false_spec, FloatAxioms.opp_spec.
  by destruct (Prim2SF x) as [s|s| |s m e].
Qed.

Lemma zero_spec : Prim2SF 0 = S754_zero false.
Proof. reflexivity. Qed.

Lemma leb_opp_self (clip : float) :
  (0 <=? clip)%float = true -> (- clip <=? clip)%float = true.
Proof.
  rewrite !FloatAxioms.leb_spec, FloatAxioms.opp_spec, zero_spec.
  destruct (Prim2SF clip) as [s|s| |s m e]; try destruct s; simpl;
    try discriminate; reflexivity.
Qed.

Lemma leb_opp_zero (clip : float) :
  (0 <=? clip)%float = true -> (- clip <=? 0)%float = true.
Proof.
  rewrite !FloatAxioms.leb_spec, FloatAxioms.opp_spec, zero_spec.
  destruct (Prim2SF clip) as [s|s| |s m e]; try destruct s; simpl;
    try discriminate; reflexivity.
Qed.

(** The clamp of lines 216-217 brings every number into the range: only a
    NaN passes through. *)
Lemma clamp_bounds (clip y : float) :
  (0 <=? clip)%float = true ->
  is_nan y = false ->
  (- clip <=? Artifact.clamp clip y)%float = true /\
  (Artifact.clamp clip y <=? clip)%float = true.
Proof.
  intros Hclip Hy. destruct (leb_not_nan _ _ Hclip) as [_ Hc].
  pose proof (opp_not_nan clip Hc) as Hoc.
  unfold Artifact.clamp.
  destruct (clip <? y)%float eqn:H1.
  - split; [by apply leb_opp_self|by apply leb_refl].
  - destruct (y <? - clip)%float eqn:H2.
    + split; [by apply leb_refl|by apply leb_opp_self].
    + split; by apply ltb_false_leb.
Qed.

Lemma clamp_is_nan (clip y : float) :
  (0 <=? clip)%float = true ->
  is_nan (Artifact.clamp clip y) = is_nan y.
Proof.
  intros Hclip. destruct (leb_not_nan _ _ Hclip) as [_ Hc].
  destruct (is_nan y) eqn:Hy; [by rewrite clamp_nan|].
  destruct (clamp_bounds clip y Hclip Hy) as [_ H].
  by apply leb_not_nan in H as [H _].
Qed.

Section Range.

Context {Model : Type} (sk : Split.sklearn Model).
Context (math_pow : float -> Z -> float) (literal : float -> float).

Lemma route_within_clip (r : Split.result (Model := Model))
    (clip cutAngle power y : float) :
  (0 <=? clip)%float = true ->
  Artifact.route sk math_pow literal r clip cutAngle power = Some y ->
  is_nan y = false ->
  (- clip <=? y)%float = true /\ (y <=? clip)%float = true.
Proof.
  intros Hclip. unfold Artifact.route.
  destruct (if (cutAngle <? float_of_Z (Split.split r))%float
            then Artifact.bracket_function sk math_pow literal (Split.mL r)
                   cutAngle power
            else Artifact.bracket_function sk math_pow literal (Split.mR r)
                   cutAngle power) as [v|]; [|discriminate].
  intros [= <-] Hy. rewrite clamp_is_nan in Hy by done.
  by apply clamp_bounds.
Qed.

(** Whatever the artifact and the arguments, a result of the emitted
    predictor that is not a NaN lies within the clip range; and any
    argument that is not finite gives [0]. *)
Theorem predictor_within_clip_unless_nan
    (results : list (Split.result (Model := Model)))
    (clip cutAngle spinY power y : float) :
  (0 <=? clip)%float = true ->
  Artifact.predictAngleError sk math_pow literal results clip cutAngle spinY
                             power = Some y ->
  (is_nan y = false ->
   (- clip <=? y)%float = true /\ (y <=? clip)%float = true) /\
  (is_finite cutAngle = false \/ is_finite spinY = false \/
   is_finite power = false -> y = 0%float).
Proof.
  intros Hclip Hrun. split.
  - intros Hy. unfold Artifact.predictAngleError in Hrun.
    assert (Hzero : (- clip <=? 0)%float = true /\ (0 <=? clip)%float = true)
      by (split; [by apply leb_opp_zero|done]).
    destruct (negb (is_finite cutAngle) || negb (is_finite spinY)
              || negb (is_finite power)); [by injection Hrun as <-|].
    destruct (List.find _ results) as [r|].
    + by apply (route_within_clip r clip cutAngle power).
    + destruct results as [|first rest]; [by injection Hrun as <-|].
      destruct (last (first :: rest)) as [final|];
        [|by injection Hrun as <-].
      destruct (power <? Split.pmin first)%float.
      * by apply (route_within_clip first clip cutAngle power).
      * by apply (route_within_clip final clip cutAngle power).
  - intros Hnf.
    rewrite (predictAngleError_not_finite sk math_pow literal results clip
               cutAngle spinY power Hnf) in Hrun.
    by injection Hrun as <-.
Qed.

End Range.

Lemma predictor_within_clip_unless_nan_witness :
  (0 <=? 15)%float = true /\
  Artifact.predictAngleError sample_sklearn power_by_products id
    [cubic_result] 15 1e6 0 5 = Some 15%float /\
  (is_nan 15 = false ->
   (- 15 <=? 15)%float = true /\ (15 <=? 15)%float = true) /\
  (is_finite 1e6 = false \/ is_finite 0 = false \/ is_finite 5 = false ->
   15%float = 0%float).
Proof.
  assert (H1 : (0 <=? 15)%float = true) by (vm_compute; reflexivity).
  assert (H2 : Artifact.predictAngleError sample_sklearn power_by_products id
                 [cubic_result] 15 1e6 0 5 = Some 15%float)
    by (vm_compute; reflexivity).
  split; [exact H1|]. split; [exact H2|].
  exact (predictor_within_clip_unless_nan sample_sklearn power_by_products id
           [cubic_result] 15 1e6 0 5 15 H1 H2).
Defined.

(** ** From the shots to the expanded features (the flat variants' main) *)





